(** * script_factory: the two deep-research scripts

    A shallow embedding of [gemini_deep_research.py] and
    [openai_deep_research.py]: the slug of an instruction, the choice of
    the output path, and the loop that reduces the vendor's event stream
    to a report file. *)

From Stdlib Require Import String Ascii.
From Stdlib Require Import List NArith ZArith Lia Bool.
Import ListNotations.

Set Implicit Arguments.

(** ** Python values and library functions the scripts call *)

Module Py.

(** A Python [str] is a sequence of Unicode code points. *)
Definition char := N.
Definition str := list char.

(** A literal of the source, written in ASCII. *)
Definition lit (s : string) : str :=
  map N_of_ascii (list_ascii_of_string s).

Definition HYPHEN : char := 45%N.
Definition UNDERSCORE : char := 95%N.

Fixpoint str_eqb (a b : str) : bool :=
  match a, b with
  | [], [] => true
  | x :: a', y :: b' => N.eqb x y && str_eqb a' b'
  | _, _ => false
  end.

(** Truth value of a [str]: the empty string is false. *)
Definition truthy (s : str) : bool :=
  match s with [] => false | _ :: _ => true end.

(** The rows of the Unicode character database outside ASCII, as CPython
    consults them.  Inside ASCII the tables are written out below. *)
Record unicodedata := {
  uni_isalnum : char -> bool;  (* str.isalnum of one character *)
  uni_isspace : char -> bool;  (* str.isspace of one character *)
  uni_lower : str -> str       (* full lower-casing of a non-ASCII string *)
}.

Definition between (lo hi c : char) : bool := (lo <=? c)%N && (c <=? hi)%N.

Local Open Scope N_scope.

Definition is_ascii (c : char) : bool := c <? 128.
Definition ascii_isupper (c : char) : bool := between 65 90 c.
Definition ascii_islower (c : char) : bool := between 97 122 c.
Definition ascii_isdigit (c : char) : bool := between 48 57 c.
Definition ascii_isalnum (c : char) : bool :=
  ascii_isdigit c || ascii_isupper c || ascii_islower c.
(** TAB, LF, VT, FF, CR, the separators FS, GS, RS, US and the space. *)
Definition ascii_isspace (c : char) : bool :=
  between 9 13 c || between 28 32 c.
Definition ascii_tolower (c : char) : char :=
  if ascii_isupper c then c + 32 else c.

Local Close Scope N_scope.

Section Unicode.
Variable U : unicodedata.

Definition isalnum (c : char) : bool :=
  if is_ascii c then ascii_isalnum c else uni_isalnum U c.

Definition isspace (c : char) : bool :=
  if is_ascii c then ascii_isspace c else uni_isspace U c.

(** [text.lower()]: an all-ASCII string is lower-cased character by
   character, any other string by the Unicode case mapping. *)
Definition lower (text : str) : str :=
  if forallb is_ascii text then map ascii_tolower text
  else uni_lower U text.

(** The regular expression classes of the two patterns ([str]
   patterns are Unicode patterns). *)
Definition re_w (c : char) : bool := isalnum c || N.eqb c UNDERSCORE.
Definition re_s (c : char) : bool := isspace c.

(** The set [[^\w\s-]]. *)
Definition not_word_space_hyphen (c : char) : bool :=
  negb (re_w c || re_s c || N.eqb c HYPHEN).

(** The set [[\s_]]. *)
Definition space_or_underscore (c : char) : bool :=
  re_s c || N.eqb c UNDERSCORE.
End Unicode.

(** [re.sub(r"[cls]", "", s)]: every character of the class is removed. *)
Definition re_sub_class_empty (cls : char -> bool) (s : str) : str :=
  filter (fun c => negb (cls c)) s.

(** [re.sub(r"[cls]+", repl, s)]: every maximal run of characters of the
    class is replaced by [repl]; [in_run] tells that the previous character
    belonged to a run already replaced. *)
Fixpoint re_sub_runs (cls : char -> bool) (repl : str) (in_run : bool)
    (s : str) : str :=
  match s with
  | [] => []
  | c :: s' =>
      if cls c then
        (if in_run then [] else repl) ++ re_sub_runs cls repl true s'
      else c :: re_sub_runs cls repl false s'
  end.

Fixpoint lstrip (chars : char -> bool) (s : str) : str :=
  match s with
  | [] => []
  | c :: s' => if chars c then lstrip chars s' else s
  end.

Definition rstrip (chars : char -> bool) (s : str) : str :=
  rev (lstrip chars (rev s)).

(** [s.strip(chars)]: leading and trailing characters of the set go. *)
Definition strip (chars : char -> bool) (s : str) : str :=
  rstrip chars (lstrip chars s).

(** [s[:n]] for an [int] n: a negative bound counts from the end. *)
Definition slice_to (s : str) (n : Z) : str :=
  if (n <? 0)%Z then firstn (Z.to_nat (Z.of_nat (length s) + n)) s
  else firstn (Z.to_nat n) s.

End Py.

Import Py.

(** ** Paths, the clock, and what a run does to the outside world *)

Inductive script := gemini_deep_research_py | openai_deep_research_py.

(** [pathlib] paths, kept as the expressions that build them: the directory
    of a script, and [p / name].  How [pathlib] reads separators inside
    [name] is not interpreted. *)
Inductive Path :=
| ScriptDir (file : script)
| PathDiv (p : Path) (name : str).

Notation "p // name" := (PathDiv p name) (at level 40, left associativity).

(** [datetime.now()]: 1 <= year <= 9999, 1 <= month <= 12, 1 <= day <= 31,
    hour < 24, minute < 60, second < 60. *)
Record datetime := {
  year : N; month : N; day : N; hour : N; minute : N; second : N
}.

Definition valid_datetime (d : datetime) : Prop :=
  (1 <= year d <= 9999 /\ 1 <= month d <= 12 /\ 1 <= day d <= 31 /\
   hour d < 24 /\ minute d < 60 /\ second d < 60)%N.

(** The decimal digits of [n], zero-padded to [width] digits. *)
Fixpoint zero_padded (width : nat) (n : N) : str :=
  match width with
  | O => []
  | S w => zero_padded w (n / 10) ++ [(48 + n mod 10)%N]
  end.

Definition PERCENT : char := 37%N.

Definition directive (d : datetime) (code : char) : str :=
  if N.eqb code 89 then zero_padded 4 (year d)          (* %Y *)
  else if N.eqb code 109 then zero_padded 2 (month d)   (* %m *)
  else if N.eqb code 100 then zero_padded 2 (day d)     (* %d *)
  else if N.eqb code 72 then zero_padded 2 (hour d)     (* %H *)
  else if N.eqb code 77 then zero_padded 2 (minute d)   (* %M *)
  else if N.eqb code 83 then zero_padded 2 (second d)   (* %S *)
  else [PERCENT; code].

(** [d.strftime(fmt)], for the directives above. *)
Fixpoint strftime (d : datetime) (fmt : str) : str :=
  match fmt with
  | [] => []
  | c :: rest =>
      if N.eqb c PERCENT then
        match rest with
        | [] => [c]
        | code :: rest' => directive d code ++ strftime d rest'
        end
      else c :: strftime d rest
  end.

(** A formatted string: literal text and paths shown inside it. *)
Inductive piece := Text (s : str) | Shown (p : Path).
Definition message := list piece.

Inductive effect :=
| Stdout (m : message)
| Stderr (m : message)
| MkdirParents (p : Path)             (* p.mkdir(parents=True, exist_ok=True) *)
| WriteText (p : Path) (content : str).

Definition NL : str := [10%N].

(** How a block of Python ends: it falls through with a value, or
    [sys.exit(code)] unwinds it. *)
Inductive outcome (A : Type) :=
| Return (a : A)
| SystemExit (code : Z).
Arguments Return {A} a.
Arguments SystemExit {A} code.

(** A block of a function whose local variables are [S]: from the locals
    it yields the effects performed, the locals afterwards, and how it
    ended. *)
Definition Run (S A : Type) : Type := S -> list effect * S * outcome A.

Module RunMonad.

Definition ret {S A} (a : A) : Run S A := fun s => ([], s, Return a).

Definition bind {S A B} (m : Run S A) (k : A -> Run S B) : Run S B :=
  fun s =>
    match m s with
    | (t, s', Return a) =>
        match k a s' with (t', s'', o) => (t ++ t', s'', o) end
    | (t, s', SystemExit code) => (t, s', SystemExit code)
    end.

Definition emit {S} (e : effect) : Run S unit :=
  fun s => ([e], s, Return tt).

Definition sys_exit {S A} (code : Z) : Run S A :=
  fun s => ([], s, SystemExit code).

Definition get {S} : Run S S := fun s => ([], s, Return s).
Definition assign {S} (f : S -> S) : Run S unit :=
  fun s => ([], f s, Return tt).

Notation "x <- m ;; k" := (bind m (fun x => k))
  (at level 61, m at next level, right associativity).
Notation "m ;; k" := (bind m (fun _ => k))
  (at level 61, right associativity).

(** [print(m)], [print(m, end="")] and [print(m, file=sys.stderr)]. *)
Definition print {S} (m : message) : Run S unit :=
  emit (Stdout (m ++ [Text NL])).
Definition print_end {S} (m : message) (e : str) : Run S unit :=
  emit (Stdout (m ++ [Text e])).
Definition print_err {S} (m : message) : Run S unit :=
  emit (Stderr (m ++ [Text NL])).

(** [for x in stream: body], over the events the stream yields. *)
Fixpoint for_each {S E} (stream : list E) (body : E -> Run S unit)
    : Run S unit :=
  match stream with
  | [] => ret tt
  | x :: rest => body x ;; for_each rest body
  end.

End RunMonad.

Import RunMonad.

Definition trace_of {S A} (r : list effect * S * outcome A) : list effect :=
  fst (fst r).
Definition locals_of {S A} (r : list effect * S * outcome A) : S :=
  snd (fst r).
Definition outcome_of {S A} (r : list effect * S * outcome A) : outcome A :=
  snd r.

(** The exit status of the process when the block is all it runs. *)
Definition exit_status {A} (o : outcome A) : Z :=
  match o with Return _ => 0%Z | SystemExit code => code end.

Definition is_write (e : effect) : bool :=
  match e with WriteText _ _ => true | _ => false end.
Definition touches_files (e : effect) : bool :=
  match e with WriteText _ _ | MkdirParents _ => true | _ => false end.

(** The run wrote a file. *)
Definition writes (t : list effect) : bool := existsb is_write t.

(** The [-o] value as [if args.output:] reads it: [None] and the empty
    string are false. *)
Definition given (o : option str) : bool :=
  match o with Some name => truthy name | None => false end.
Definition value (o : option str) : str :=
  match o with Some name => name | None => [] end.

(** The content of a [config.json] that parses and holds the key the
    scripts read.  A file that does not parse, or lacks the key, raises an
    exception in [json.load] or in [config["api_key"]]; that is not
    modelled. *)
Record Config := { api_key : str }.

(** The literal [strip("-")] argument of both [slugify] functions. *)
Definition hyphen_set (c : char) : bool := N.eqb c HYPHEN.

(** ** gemini_deep_research.py *)

Module Gemini.

Definition SCRIPT_DIR : Path := ScriptDir gemini_deep_research_py.
Definition CONFIG_PATH : Path := SCRIPT_DIR // lit "config.json".
Definition OUTPUT_DIR : Path := SCRIPT_DIR // lit "gemini-deep-research_data".

(** [config_file] is the parsed content of [CONFIG_PATH], [None] when the
    file does not exist. *)
Definition load_config {S} (config_file : option Config) : Run S Config :=
  match config_file with
  | None =>
      print_err [Text (lit "Error: "); Shown CONFIG_PATH;
                 Text (lit " not found. Copy config.example.json and fill in your API key.")] ;;
      sys_exit 1
  | Some config => ret config
  end.

Definition slugify (U : unicodedata) (text : str) (max_len : Z) : str :=
  let slug := re_sub_class_empty (not_word_space_hyphen U) (lower U text) in
  let slug :=
    strip hyphen_set
      (re_sub_runs (space_or_underscore U) (lit "-") false slug) in
  slice_to slug max_len.

(** An event of the interactions stream, with the attributes the loop
    reads: [chunk.event_type], [chunk.interaction.id], [chunk.delta.type],
    [chunk.delta.text] and [chunk.delta.content.text]. *)
Record Chunk := {
  event_type : str;
  interaction_id : str;
  delta_type : str;
  delta_text : str;
  delta_content_text : str
}.

Record locals := { l_interaction_id : option str; report : str }.

Definition unbound : locals := {| l_interaction_id := None; report := [] |}.

Definition loop_body (chunk : Chunk) : Run locals unit :=
  if str_eqb (event_type chunk) (lit "interaction.start") then
    assign (fun l => {| l_interaction_id := Some (interaction_id chunk);
                        report := report l |}) ;;
    print [Text (lit "[Started] Interaction ID: ");
           Text (interaction_id chunk); Text NL]
  else if str_eqb (event_type chunk) (lit "content.delta") then
    if str_eqb (delta_type chunk) (lit "text") then
      assign (fun l => {| l_interaction_id := l_interaction_id l;
                          report := report l ++ delta_text chunk |}) ;;
      print_end [Text (delta_text chunk)] []
    else if str_eqb (delta_type chunk) (lit "thought_summary") then
      print [Text (lit "[Thinking] "); Text (delta_content_text chunk)]
    else ret tt
  else if str_eqb (event_type chunk) (lit "interaction.complete") then
    print [Text NL; Text NL; Text (lit "[Complete] Research finished.")]
  else if str_eqb (event_type chunk) (lit "error") then
    print_err [Text NL; Text (lit "[Error] Research failed.")] ;;
    sys_exit 1
  else ret tt.

Definition run_deep_research (config_file : option Config)
    (instruction : str) (output_path : Path) (stream : list Chunk)
    : Run locals unit :=
  _config <- load_config config_file ;;
  print [Text (lit "Starting deep research...")] ;;
  print [Text (lit "Instruction: "); Text instruction; Text NL] ;;
  assign (fun _ => {| l_interaction_id := None; report := [] |}) ;;
  for_each stream loop_body ;;
  l <- get ;;
  (if negb (truthy (report l)) then
     print_err [Text (lit "Error: No report content received.")] ;;
     sys_exit 1
   else ret tt) ;;
  emit (MkdirParents output_path) ;;
  emit (WriteText output_path (report l)) ;;
  print [Text NL; Text (lit "Report saved to: "); Shown output_path].

Record Args := { instruction : str; output : option str }.

(** The local [output_path] of [main]. *)
Definition output_path (U : unicodedata) (args : Args) (now : datetime)
    : Path :=
  if given (output args) then OUTPUT_DIR // value (output args)
  else
    let timestamp := strftime now (lit "%Y%m%d_%H%M%S") in
    let slug := slugify U (instruction args) 60 in
    OUTPUT_DIR // (timestamp ++ lit "_" ++ slug ++ lit ".md").

Definition main (U : unicodedata) (args : Args) (now : datetime)
    (config_file : option Config) (stream : list Chunk) : Run locals unit :=
  run_deep_research config_file (instruction args)
    (output_path U args now) stream.

(** The events the claims speak of, by the tests [loop_body] makes. *)
Definition is_error (chunk : Chunk) : bool :=
  str_eqb (event_type chunk) (lit "error").
Definition is_completed (chunk : Chunk) : bool :=
  str_eqb (event_type chunk) (lit "interaction.complete").
Definition is_text_delta (chunk : Chunk) : bool :=
  str_eqb (event_type chunk) (lit "content.delta") &&
  str_eqb (delta_type chunk) (lit "text").
(** The text a chunk adds to the report. *)
Definition fragment (chunk : Chunk) : str :=
  if is_text_delta chunk then delta_text chunk else [].

End Gemini.

(** ** openai_deep_research.py *)

Module OpenAI.

Definition SCRIPT_DIR : Path := ScriptDir openai_deep_research_py.
Definition CONFIG_PATH : Path := SCRIPT_DIR // lit "config.json".
Definition OUTPUT_DIR : Path := SCRIPT_DIR // lit "openai-deep-research_data".
Definition DEFAULT_MODEL : str := lit "o3-deep-research".

Definition load_config {S} (config_file : option Config) : Run S Config :=
  match config_file with
  | None =>
      print_err [Text (lit "Error: "); Shown CONFIG_PATH;
                 Text (lit " not found. Copy config.example.json and fill in your API key.")] ;;
      sys_exit 1
  | Some config => ret config
  end.

Definition slugify (U : unicodedata) (text : str) (max_len : Z) : str :=
  let slug := re_sub_class_empty (not_word_space_hyphen U) (lower U text) in
  let slug :=
    strip hyphen_set
      (re_sub_runs (space_or_underscore U) (lit "-") false slug) in
  slice_to slug max_len.

(** An event of the responses stream, with the attributes the loop reads:
    [event.type], [event.response.id], [event.item.type], [event.delta],
    and the text [str(event)] shown in the error line. *)
Record Event := {
  type : str;
  response_id : str;
  item_type : str;
  delta : str;
  event_str : str
}.

Record locals := { report : str }.

Definition unbound : locals := {| report := [] |}.

Definition loop_body (event : Event) : Run locals unit :=
  let event_type := type event in
  if str_eqb event_type (lit "response.created") then
    print [Text (lit "[Started] Response ID: "); Text (response_id event);
           Text NL]
  else if str_eqb event_type (lit "response.output_item.added") then
    print [Text (lit "[+] Output item: "); Text (item_type event)]
  else if str_eqb event_type (lit "response.output_text.delta") then
    assign (fun l => {| report := report l ++ delta event |}) ;;
    print_end [Text (delta event)] []
  else if str_eqb event_type (lit "response.reasoning_summary_text.delta") then
    print [Text (lit "[Thinking] "); Text (delta event)]
  else if str_eqb event_type (lit "response.completed") then
    print [Text NL; Text NL; Text (lit "[Complete] Research finished.")]
  else if str_eqb event_type (lit "error") then
    print_err [Text NL; Text (lit "[Error] "); Text (event_str event)] ;;
    sys_exit 1
  else ret tt.

Definition run_deep_research (config_file : option Config)
    (instruction : str) (output_path : Path) (model : str)
    (stream : list Event) : Run locals unit :=
  _config <- load_config config_file ;;
  print [Text (lit "Starting deep research with "); Text model;
         Text (lit "...")] ;;
  print [Text (lit "Instruction: "); Text instruction; Text NL] ;;
  assign (fun _ => {| report := [] |}) ;;
  for_each stream loop_body ;;
  l <- get ;;
  (if negb (truthy (report l)) then
     print_err [Text (lit "Error: No report content received.")] ;;
     sys_exit 1
   else ret tt) ;;
  emit (MkdirParents output_path) ;;
  emit (WriteText output_path (report l)) ;;
  print [Text NL; Text (lit "Report saved to: "); Shown output_path].

Record Args := { instruction : str; output : option str; model : str }.

(** The local [output_path] of [main]. *)
Definition output_path (U : unicodedata) (args : Args) (now : datetime)
    : Path :=
  if given (output args) then OUTPUT_DIR // value (output args)
  else
    let timestamp := strftime now (lit "%Y%m%d_%H%M%S") in
    let slug := slugify U (instruction args) 60 in
    OUTPUT_DIR // (timestamp ++ lit "_" ++ slug ++ lit ".md").

Definition main (U : unicodedata) (args : Args) (now : datetime)
    (config_file : option Config) (stream : list Event) : Run locals unit :=
  run_deep_research config_file (instruction args)
    (output_path U args now) (model args) stream.

(** The events the claims speak of, by the tests [loop_body] makes. *)
Definition is_error (event : Event) : bool :=
  str_eqb (type event) (lit "error").
Definition is_completed (event : Event) : bool :=
  str_eqb (type event) (lit "response.completed").
Definition is_text_delta (event : Event) : bool :=
  str_eqb (type event) (lit "response.output_text.delta").
(** The text an event adds to the report. *)
Definition fragment (event : Event) : str :=
  if is_text_delta event then delta event else [].

End OpenAI.

(** ** Vocabulary of the properties *)

(** The files a trace writes, in order. *)
Definition written (t : list effect) : list (Path * str) :=
  flat_map (fun e => match e with WriteText p c => [(p, c)] | _ => [] end) t.

(** A trace that leaves the file system alone. *)
Definition quiet (t : list effect) : Prop := existsb touches_files t = false.

(** The events a loop takes from the stream before [sys.exit] stops it. *)
Fixpoint before_error {E} (is_error : E -> bool) (stream : list E) : list E :=
  match stream with
  | [] => []
  | e :: rest => if is_error e then [] else e :: before_error is_error rest
  end.

(** The fragments of the events, joined left to right. *)
Definition fragments {E} (fragment : E -> str) (stream : list E) : str :=
  concat (map fragment stream).

Definition is_digit (c : char) : bool := ascii_isdigit c.

(** The number a string of decimal digits denotes. *)
Definition decimal_value (s : str) : N :=
  fold_left (fun acc c => (10 * acc + (c - 48))%N) s 0%N.

(** [s] is [n] written with exactly [width] decimal digits. *)
Definition is_decimal (width : nat) (n : N) (s : str) : Prop :=
  length s = width /\ forallb is_digit s = true /\ decimal_value s = n.

Definition ends_with_hyphen (s : str) : bool :=
  match rev s with c :: _ => N.eqb c HYPHEN | [] => false end.
Definition starts_with_hyphen (s : str) : bool :=
  match s with c :: _ => N.eqb c HYPHEN | [] => false end.

(** A character of [[a-z0-9-]]. *)
Definition slug_char (c : char) : bool :=
  ascii_islower c || ascii_isdigit c || N.eqb c HYPHEN.

(** The lines a trace sends to the error stream, in order. *)
Definition errors (t : list effect) : list message :=
  flat_map (fun e => match e with Stderr m => [m] | _ => [] end) t.

Definition is_stdout (e : effect) : bool :=
  match e with Stdout _ => true | _ => false end.

(** A trace that only prints to the standard output. *)
Definition console_only (t : list effect) : Prop :=
  forallb is_stdout t = true.

(** What the claims and the exit status depend on in an event: whether it
    is an [error] event, and the text it adds to the report. *)
Definition gemini_view (c : Gemini.Chunk) : bool * str :=
  (Gemini.is_error c, Gemini.fragment c).
Definition openai_view (e : OpenAI.Event) : bool * str :=
  (OpenAI.is_error e, OpenAI.fragment e).

(** The name [main] gives the report file. *)
Definition file_name (U : unicodedata) (instruction : str)
    (output : option str) (now : datetime) : str :=
  if given output then value output
  else strftime now (lit "%Y%m%d_%H%M%S") ++ lit "_" ++
       Gemini.slugify U instruction 60 ++ lit ".md".

(** ** Concrete inputs *)

Definition example_config : Config := {| api_key := lit "sk-test" |}.

Definition gemini_event (tag : str) : Gemini.Chunk :=
  {| Gemini.event_type := tag; Gemini.interaction_id := [];
     Gemini.delta_type := []; Gemini.delta_text := [];
     Gemini.delta_content_text := [] |}.
Definition gemini_text (s : str) : Gemini.Chunk :=
  {| Gemini.event_type := lit "content.delta"; Gemini.interaction_id := [];
     Gemini.delta_type := lit "text"; Gemini.delta_text := s;
     Gemini.delta_content_text := [] |}.
Definition gemini_completed : Gemini.Chunk :=
  gemini_event (lit "interaction.complete").
Definition gemini_error : Gemini.Chunk := gemini_event (lit "error").

Definition openai_event (tag : str) : OpenAI.Event :=
  {| OpenAI.type := tag; OpenAI.response_id := []; OpenAI.item_type := [];
     OpenAI.delta := []; OpenAI.event_str := [] |}.
Definition openai_text (s : str) : OpenAI.Event :=
  {| OpenAI.type := lit "response.output_text.delta";
     OpenAI.response_id := []; OpenAI.item_type := [];
     OpenAI.delta := s; OpenAI.event_str := [] |}.
Definition openai_completed : OpenAI.Event :=
  openai_event (lit "response.completed").
Definition openai_error : OpenAI.Event := openai_event (lit "error").

Definition gemini_thought : Gemini.Chunk :=
  {| Gemini.event_type := lit "content.delta"; Gemini.interaction_id := [];
     Gemini.delta_type := lit "thought_summary";
     Gemini.delta_text := lit "not for the report";
     Gemini.delta_content_text := lit "weighing sources" |}.
Definition openai_thought : OpenAI.Event :=
  {| OpenAI.type := lit "response.reasoning_summary_text.delta";
     OpenAI.response_id := []; OpenAI.item_type := [];
     OpenAI.delta := lit "weighing sources"; OpenAI.event_str := [] |}.

Definition example_instruction : str :=
  lit "Impact of tariffs on semiconductor supply chains".
Definition example_now : datetime :=
  {| year := 2025; month := 3; day := 1; hour := 10; minute := 0;
     second := 0 |}.
Definition one_second_later : datetime :=
  {| year := 2025; month := 3; day := 1; hour := 10; minute := 0;
     second := 1 |}.
Definition gemini_report_md : Path := Gemini.OUTPUT_DIR // lit "report.md".
Definition openai_report_md : Path := OpenAI.OUTPUT_DIR // lit "report.md".

(** ['a' * 59 + ' b']: the slug before truncation is 61 characters long and
    its 60th character is the hyphen that replaces the space. *)
Definition long_instruction : str := repeat 97%N 59 ++ lit " b".

(** * Proofs *)

(** ** Strings *)

Lemma str_eqb_eq (a b : str) : str_eqb a b = true <-> a = b.
Proof.
  revert b; induction a as [|x a IH]; intros [|y b]; simpl;
    try (split; [discriminate | congruence]); try tauto.
  rewrite andb_true_iff, N.eqb_eq, IH. split.
  - intros [-> ->]; reflexivity.
  - intros H; injection H; auto.
Qed.

Lemma truthy_false (s : str) : truthy s = false <-> s = [].
Proof. destruct s; simpl; split; congruence. Qed.

(** ** Tactics *)

(** Comparisons of two literals of the source are computed; a comparison
    with an attribute of an event is split in its two cases. *)
Ltac eval_tags :=
  repeat match goal with
  | |- context [str_eqb (lit ?a) (lit ?b)] =>
      let v := eval vm_compute in (str_eqb (lit a) (lit b)) in
      change (str_eqb (lit a) (lit b)) with v
  end; cbv iota.

Ltac by_tag x :=
  match goal with
  | |- context [str_eqb x (lit ?b)] =>
      let T := fresh "T" in
      destruct (str_eqb x (lit b)) eqn:T;
      [apply str_eqb_eq in T; try rewrite T in *; eval_tags |]
  end.

(** Comparisons of a code point with constants, decided by [lia]. *)
Ltac decide_ranges :=
  repeat match goal with
  | |- context [(?a <=? ?b)%N] =>
      first [ replace (a <=? b)%N with true by (symmetry; apply N.leb_le; lia)
            | replace (a <=? b)%N with false by (symmetry; apply N.leb_gt; lia) ]
  | |- context [(?a <? ?b)%N] =>
      first [ replace (a <? b)%N with true by (symmetry; apply N.ltb_lt; lia)
            | replace (a <? b)%N with false by (symmetry; apply N.ltb_ge; lia) ]
  | |- context [N.eqb ?a ?b] =>
      first [ replace (N.eqb a b) with true by (symmetry; apply N.eqb_eq; lia)
            | replace (N.eqb a b) with false by (symmetry; apply N.eqb_neq; lia) ]
  end.

(** ** Traces *)

Lemma quiet_app (t u : list effect) : quiet t -> quiet u -> quiet (t ++ u).
Proof. unfold quiet; rewrite existsb_app; intros -> ->; reflexivity. Qed.

Lemma quiet_written (t : list effect) : quiet t -> written t = [].
Proof.
  unfold quiet; induction t as [|e t IH]; simpl; [reflexivity|].
  rewrite orb_false_iff; intros [He Ht]; rewrite (IH Ht).
  destruct e; simpl in *; congruence.
Qed.

Lemma written_app (t u : list effect) :
  written (t ++ u) = written t ++ written u.
Proof. apply flat_map_app. Qed.

Lemma writes_written (t : list effect) : writes t = true <-> written t <> [].
Proof.
  unfold writes; induction t as [|e t IH]; simpl.
  - split; [discriminate | congruence].
  - destruct e; simpl; try exact IH; split; intros; [discriminate | reflexivity].
Qed.

Lemma quiet_writes (t : list effect) : quiet t -> writes t = false.
Proof.
  intros H. destruct (writes t) eqn:W; [|reflexivity].
  apply writes_written in W. now rewrite quiet_written in W.
Qed.

(** ** The loop, for any body that behaves like the two of the scripts *)

Section Reducer.
Context {S E : Type}.
Variable body : E -> Run S unit.
Variable report : S -> str.
Variable is_error : E -> bool.
Variable fragment : E -> str.

Hypothesis body_error : forall e s, is_error e = true ->
  exists t, body e s = (t, s, SystemExit 1%Z) /\ quiet t.
Hypothesis body_other : forall e s, is_error e = false ->
  exists t s', body e s = (t, s', Return tt) /\
    report s' = report s ++ fragment e /\ quiet t.

Lemma for_each_spec (stream : list E) : forall s, exists t s',
  for_each stream body s =
    (t, s', if existsb is_error stream then SystemExit 1%Z else Return tt) /\
  report s' = report s ++ fragments fragment (before_error is_error stream) /\
  quiet t.
Proof.
  induction stream as [|e rest IH]; intros s; simpl.
  - exists [], s. unfold ret, fragments. simpl. rewrite app_nil_r.
    repeat split; reflexivity.
  - unfold bind. destruct (is_error e) eqn:He.
    + destruct (body_error s He) as (t & Hb & Hq). rewrite Hb.
      exists t, s. unfold fragments; simpl. rewrite app_nil_r. auto.
    + destruct (body_other s He) as (t & s' & Hb & Hr & Hq). rewrite Hb.
      destruct (IH s') as (t' & s'' & Hl & Hr' & Hq'). rewrite Hl.
      exists (t ++ t'), s''. simpl. split; [reflexivity|]. split.
      * rewrite Hr', Hr. unfold fragments; simpl. now rewrite app_assoc.
      * now apply quiet_app.
Qed.
End Reducer.

Lemma before_error_all {E} (is_error : E -> bool) (stream : list E) :
  existsb is_error stream = false -> before_error is_error stream = stream.
Proof.
  induction stream as [|e rest IH]; simpl; [reflexivity|].
  rewrite orb_false_iff; intros [-> H]; now rewrite IH.
Qed.

Lemma fragments_nil {E} (fragment : E -> str) (stream : list E) :
  fragments fragment stream = [] <->
  forall e, In e stream -> fragment e = [].
Proof.
  unfold fragments; induction stream as [|e rest IH]; simpl.
  - split; [intros _ e [] | reflexivity].
  - split.
    + intros H; apply app_eq_nil in H as [H1 H2].
      intros x [<-|Hx]; [exact H1 | now apply IH].
    + intros H. rewrite (H e (or_introl eq_refl)). simpl.
      apply IH; intros x Hx; apply H; now right.
Qed.

Lemma fragments_app {E} (fragment : E -> str) (a b : list E) :
  fragments fragment (a ++ b) = fragments fragment a ++ fragments fragment b.
Proof. unfold fragments. now rewrite map_app, concat_app. Qed.

(** The monad laws the loop proofs use. *)
Lemma for_each_app {S E} (body : E -> Run S unit) (a b : list E) (s : S) :
  for_each (a ++ b) body s = (for_each a body ;; for_each b body) s.
Proof.
  revert s; induction a as [|x a IH]; intros s; simpl.
  - unfold bind, ret. now destruct (for_each b body s) as [[t s'] o].
  - unfold bind in *. destruct (body x s) as [[t s'] [[]|code]]; [|reflexivity].
    rewrite IH. destruct (for_each a body s') as [[t1 s1] [[]|c1]]; [|reflexivity].
    destruct (for_each b body s1) as [[t2 s2] o2]. now rewrite app_assoc.
Qed.

(** ** The two loop bodies *)

Lemma gemini_body_error (c : Gemini.Chunk) (s : Gemini.locals) :
  Gemini.is_error c = true ->
  exists t, Gemini.loop_body c s = (t, s, SystemExit 1%Z) /\ quiet t.
Proof.
  unfold Gemini.is_error, Gemini.loop_body. intros H.
  apply str_eqb_eq in H. rewrite H. eval_tags.
  eexists; split; reflexivity.
Qed.

Lemma gemini_body_other (c : Gemini.Chunk) (s : Gemini.locals) :
  Gemini.is_error c = false ->
  exists t s', Gemini.loop_body c s = (t, s', Return tt) /\
    Gemini.report s' = Gemini.report s ++ Gemini.fragment c /\ quiet t.
Proof.
  unfold Gemini.is_error, Gemini.loop_body, Gemini.fragment,
    Gemini.is_text_delta. intros H.
  generalize dependent (Gemini.event_type c); intros et H.
  generalize (Gemini.delta_type c); intros dt.
  by_tag et; [|by_tag et; [by_tag dt; [|by_tag dt]|by_tag et; [|rewrite H]]];
    try rewrite T0; try rewrite T1; simpl;
    (do 2 eexists; split; [reflexivity|]; simpl;
     rewrite ?app_nil_r; split; reflexivity).
Qed.

Lemma openai_body_error (e : OpenAI.Event) (s : OpenAI.locals) :
  OpenAI.is_error e = true ->
  exists t, OpenAI.loop_body e s = (t, s, SystemExit 1%Z) /\ quiet t.
Proof.
  unfold OpenAI.is_error, OpenAI.loop_body. intros H.
  apply str_eqb_eq in H. rewrite H. cbv zeta. eval_tags.
  eexists; split; reflexivity.
Qed.

Lemma openai_body_other (e : OpenAI.Event) (s : OpenAI.locals) :
  OpenAI.is_error e = false ->
  exists t s', OpenAI.loop_body e s = (t, s', Return tt) /\
    OpenAI.report s' = OpenAI.report s ++ OpenAI.fragment e /\ quiet t.
Proof.
  unfold OpenAI.is_error, OpenAI.loop_body, OpenAI.fragment,
    OpenAI.is_text_delta. intros H. cbv zeta.
  generalize dependent (OpenAI.type e); intros et H.
  destruct s as [r].
  by_tag et; [|by_tag et; [|by_tag et; [|by_tag et; [|by_tag et; [|rewrite H]]]]];
    simpl; (do 2 eexists; split; [reflexivity|]; simpl;
            rewrite ?app_nil_r; split; reflexivity).
Qed.

(** ** The two runs *)

(** What a run of [run_deep_research] shows from outside: the report held
    when it stops, how it ends, and the files it wrote. *)
Lemma gemini_run_observed (cfg : Config) (instruction : str) (path : Path)
    (stream : list Gemini.Chunk) (s0 : Gemini.locals) :
  let r := Gemini.run_deep_research (Some cfg) instruction path stream s0 in
  let text := fragments Gemini.fragment stream in
  Gemini.report (locals_of r) =
    fragments Gemini.fragment (before_error Gemini.is_error stream) /\
  if existsb Gemini.is_error stream || negb (truthy text)
  then outcome_of r = SystemExit 1%Z /\ quiet (trace_of r)
  else outcome_of r = Return tt /\ written (trace_of r) = [(path, text)].
Proof.
  cbv zeta. unfold Gemini.run_deep_research, Gemini.load_config.
  unfold bind, ret, print, print_err, emit, assign, get, sys_exit.
  destruct (for_each_spec Gemini.loop_body Gemini.report Gemini.is_error
              Gemini.fragment gemini_body_error gemini_body_other stream
              {| Gemini.l_interaction_id := None; Gemini.report := [] |})
    as (t & l & Hl & Hr & Hq).
  simpl in Hr. rewrite Hl.
  destruct (existsb Gemini.is_error stream) eqn:Herr; simpl.
  - unfold locals_of, outcome_of, trace_of; simpl.
    split; [exact Hr|]. split; [reflexivity|].
    apply (quiet_app (t := [_; _])); [reflexivity | exact Hq].
  - rewrite before_error_all in Hr |- * by exact Herr.
    rewrite Hr.
    destruct (truthy (fragments Gemini.fragment stream)) eqn:Ht; simpl.
    + unfold locals_of, outcome_of, trace_of; simpl.
      split; [exact Hr|]. split; [reflexivity|].
      rewrite written_app, (quiet_written Hq). reflexivity.
    + unfold locals_of, outcome_of, trace_of; simpl.
      split; [exact Hr|]. split; [reflexivity|].
      apply (quiet_app (t := [_; _])); [reflexivity|].
      apply quiet_app; [exact Hq | reflexivity].
Qed.

Lemma openai_run_observed (cfg : Config) (instruction : str) (path : Path)
    (model : str) (stream : list OpenAI.Event) (s0 : OpenAI.locals) :
  let r := OpenAI.run_deep_research (Some cfg) instruction path model stream s0 in
  let text := fragments OpenAI.fragment stream in
  OpenAI.report (locals_of r) =
    fragments OpenAI.fragment (before_error OpenAI.is_error stream) /\
  if existsb OpenAI.is_error stream || negb (truthy text)
  then outcome_of r = SystemExit 1%Z /\ quiet (trace_of r)
  else outcome_of r = Return tt /\ written (trace_of r) = [(path, text)].
Proof.
  cbv zeta. unfold OpenAI.run_deep_research, OpenAI.load_config.
  unfold bind, ret, print, print_err, emit, assign, get, sys_exit.
  destruct (for_each_spec OpenAI.loop_body OpenAI.report OpenAI.is_error
              OpenAI.fragment openai_body_error openai_body_other stream
              {| OpenAI.report := [] |})
    as (t & l & Hl & Hr & Hq).
  simpl in Hr. rewrite Hl.
  destruct (existsb OpenAI.is_error stream) eqn:Herr; simpl.
  - unfold locals_of, outcome_of, trace_of; simpl.
    split; [exact Hr|]. split; [reflexivity|].
    apply (quiet_app (t := [_; _])); [reflexivity | exact Hq].
  - rewrite before_error_all in Hr |- * by exact Herr.
    rewrite Hr.
    destruct (truthy (fragments OpenAI.fragment stream)) eqn:Ht; simpl.
    + unfold locals_of, outcome_of, trace_of; simpl.
      split; [exact Hr|]. split; [reflexivity|].
      rewrite written_app, (quiet_written Hq). reflexivity.
    + unfold locals_of, outcome_of, trace_of; simpl.
      split; [exact Hr|]. split; [reflexivity|].
      apply (quiet_app (t := [_; _])); [reflexivity|].
      apply quiet_app; [exact Hq | reflexivity].
Qed.

Lemma gemini_run_no_config (instruction : str) (path : Path)
    (stream : list Gemini.Chunk) (s0 : Gemini.locals) :
  let r := Gemini.run_deep_research None instruction path stream s0 in
  locals_of r = s0 /\ outcome_of r = SystemExit 1%Z /\ quiet (trace_of r).
Proof. repeat split. Qed.

Lemma openai_run_no_config (instruction : str) (path : Path) (model : str)
    (stream : list OpenAI.Event) (s0 : OpenAI.locals) :
  let r := OpenAI.run_deep_research None instruction path model stream s0 in
  locals_of r = s0 /\ outcome_of r = SystemExit 1%Z /\ quiet (trace_of r).
Proof. repeat split. Qed.

Lemma existsb_In {E} (p : E -> bool) (e : E) (l : list E) :
  In e l -> p e = true -> existsb p l = true.
Proof. intros; apply existsb_exists; eauto. Qed.

Lemma fragments_nonempty {E} (fragment : E -> str) (stream : list E) :
  fragments fragment stream <> [] <->
  exists e, In e stream /\ fragment e <> [].
Proof.
  rewrite fragments_nil. split.
  - induction stream as [|e rest IH]; intros H.
    + exfalso; apply H; intros e [].
    + destruct (fragment e) eqn:F.
      * destruct IH as (x & Hx & Hn).
        { intros Hall; apply H; intros y [<-|Hy]; auto. }
        exists x; split; [now right | exact Hn].
      * exists e; split; [now left | now rewrite F].
  - intros (e & He & Hn) Hall. exact (Hn (Hall e He)).
Qed.

Lemma fragments_filter {E} (is_text : E -> bool) (text : E -> str)
    (stream : list E) :
  fragments (fun e => if is_text e then text e else []) stream =
  concat (map text (filter is_text stream)).
Proof.
  unfold fragments; induction stream as [|e rest IH]; simpl; [reflexivity|].
  destruct (is_text e); simpl; now rewrite IH.
Qed.

(** What decides whether a file is written, given what a run shows. *)
Lemma written_iff {E} (is_error : E -> bool) (fragment : E -> str)
    (stream : list E) (o : outcome unit) (t : list effect) (path : Path) :
  (if existsb is_error stream || negb (truthy (fragments fragment stream))
   then o = SystemExit 1%Z /\ quiet t
   else o = Return tt /\ written t = [(path, fragments fragment stream)]) ->
  (writes t = true <->
   existsb is_error stream = false /\
   exists e, In e stream /\ fragment e <> []).
Proof.
  intros H. rewrite <- fragments_nonempty.
  destruct (existsb is_error stream); simpl in H.
  - destruct H as [_ Hq]. rewrite (quiet_writes Hq).
    split; [discriminate | intros [? _]; discriminate].
  - destruct (truthy (fragments fragment stream)) eqn:Ht; simpl in H.
    + destruct H as [_ Hw]. split.
      * intros _; split; [reflexivity|]. intros Hn; rewrite Hn in Ht; discriminate.
      * intros _. apply writes_written. rewrite Hw; discriminate.
    + destruct H as [_ Hq]. rewrite (quiet_writes Hq).
      apply truthy_false in Ht. split; [discriminate | intros [_ Hn]; contradiction].
Qed.

Lemma gemini_fragment_nonempty (c : Gemini.Chunk) :
  Gemini.fragment c <> [] <->
  Gemini.is_text_delta c = true /\ Gemini.delta_text c <> [].
Proof.
  unfold Gemini.fragment. destruct (Gemini.is_text_delta c); split;
    try tauto; intros [? ?]; congruence.
Qed.

Lemma openai_fragment_nonempty (e : OpenAI.Event) :
  OpenAI.fragment e <> [] <->
  OpenAI.is_text_delta e = true /\ OpenAI.delta e <> [].
Proof.
  unfold OpenAI.fragment. destruct (OpenAI.is_text_delta e); split;
    try tauto; intros [? ?]; congruence.
Qed.

(** ** The artifact and the exit status *)

(** C1, as the code has it: in both scripts the report file is written if
    and only if the stream holds no [error] event and at least one
    non-empty text delta, and then it is written once, at the output path,
    with all the text fragments joined; a [completed] event is not asked
    for. *)
Theorem C1_artifact_written_iff :
  (forall cfg instruction path stream s0,
     let r := Gemini.run_deep_research (Some cfg) instruction path stream s0 in
     (writes (trace_of r) = true <->
      existsb Gemini.is_error stream = false /\
      exists c, In c stream /\
        Gemini.is_text_delta c = true /\ Gemini.delta_text c <> []) /\
     (writes (trace_of r) = true ->
      written (trace_of r) = [(path, fragments Gemini.fragment stream)])) /\
  (forall cfg instruction path model stream s0,
     let r :=
       OpenAI.run_deep_research (Some cfg) instruction path model stream s0 in
     (writes (trace_of r) = true <->
      existsb OpenAI.is_error stream = false /\
      exists e, In e stream /\
        OpenAI.is_text_delta e = true /\ OpenAI.delta e <> []) /\
     (writes (trace_of r) = true ->
      written (trace_of r) = [(path, fragments OpenAI.fragment stream)])).
Proof.
  split.
  - intros cfg instruction path stream s0 r.
    destruct (gemini_run_observed cfg instruction path stream s0) as [_ H].
    fold r in H. split.
    + rewrite (@written_iff _ _ _ _ _ _ _ H). apply and_iff_compat_l.
      split; intros (c & Hc & Hf); exists c; split; auto;
        now apply gemini_fragment_nonempty.
    + intros W. destruct (_ || _) in H; [|tauto].
      destruct H as [_ Hq]. rewrite (quiet_writes Hq) in W. discriminate.
  - intros cfg instruction path model stream s0 r.
    destruct (openai_run_observed cfg instruction path model stream s0) as [_ H].
    fold r in H. split.
    + rewrite (@written_iff _ _ _ _ _ _ _ H). apply and_iff_compat_l.
      split; intros (c & Hc & Hf); exists c; split; auto;
        now apply openai_fragment_nonempty.
    + intros W. destruct (_ || _) in H; [|tauto].
      destruct H as [_ Hq]. rewrite (quiet_writes Hq) in W. discriminate.
Qed.

(** C1 as stated fails: a stream of one text delta that ends with no
    [completed] event still has its report written, in both scripts. *)
Lemma C1_written_without_completed :
  (existsb Gemini.is_completed [gemini_text (lit "x")] = false /\
   written (trace_of (Gemini.run_deep_research (Some example_config)
              example_instruction gemini_report_md
              [gemini_text (lit "x")] Gemini.unbound))
   = [(gemini_report_md, lit "x")]) /\
  (existsb OpenAI.is_completed [openai_text (lit "x")] = false /\
   written (trace_of (OpenAI.run_deep_research (Some example_config)
              example_instruction openai_report_md OpenAI.DEFAULT_MODEL
              [openai_text (lit "x")] OpenAI.unbound))
   = [(openai_report_md, lit "x")]).
Proof. repeat split. Qed.

(** C3: a stream that holds an [error] event anywhere makes either script
    exit with status 1 and write no file, whatever text came before it
    (and whether or not the configuration file exists). *)
Theorem C3_error_event_exits_without_artifact :
  (forall config_file instruction path stream s0 c,
     In c stream -> Gemini.is_error c = true ->
     let r :=
       Gemini.run_deep_research config_file instruction path stream s0 in
     exit_status (outcome_of r) = 1%Z /\ written (trace_of r) = []) /\
  (forall config_file instruction path model stream s0 e,
     In e stream -> OpenAI.is_error e = true ->
     let r :=
       OpenAI.run_deep_research config_file instruction path model stream s0 in
     exit_status (outcome_of r) = 1%Z /\ written (trace_of r) = []).
Proof.
  split.
  - intros [cfg|] instruction path stream s0 c Hin Hc r.
    + destruct (gemini_run_observed cfg instruction path stream s0) as [_ H].
      fold r in H. rewrite (@existsb_In _ _ _ _ Hin Hc) in H. simpl in H.
      destruct H as [-> Hq]. split; [reflexivity | now apply quiet_written].
    + destruct (gemini_run_no_config instruction path stream s0)
        as (_ & Ho & Hq).
      fold r in Ho, Hq. rewrite Ho. split; [reflexivity | now apply quiet_written].
  - intros [cfg|] instruction path model stream s0 e Hin He r.
    + destruct (openai_run_observed cfg instruction path model stream s0)
        as [_ H].
      fold r in H. rewrite (@existsb_In _ _ _ _ Hin He) in H. simpl in H.
      destruct H as [-> Hq]. split; [reflexivity | now apply quiet_written].
    + destruct (openai_run_no_config instruction path model stream s0)
        as (_ & Ho & Hq).
      fold r in Ho, Hq. rewrite Ho. split; [reflexivity | now apply quiet_written].
Qed.

Lemma C3_witness :
  (In gemini_error [gemini_text (lit "partial "); gemini_error;
                    gemini_text (lit "late")] /\
   Gemini.is_error gemini_error = true /\
   let r := Gemini.run_deep_research (Some example_config)
              example_instruction gemini_report_md
              [gemini_text (lit "partial "); gemini_error;
               gemini_text (lit "late")] Gemini.unbound in
   exit_status (outcome_of r) = 1%Z /\ written (trace_of r) = []) /\
  (In openai_error [openai_text (lit "partial "); openai_error] /\
   OpenAI.is_error openai_error = true /\
   let r := OpenAI.run_deep_research (Some example_config)
              example_instruction openai_report_md OpenAI.DEFAULT_MODEL
              [openai_text (lit "partial "); openai_error] OpenAI.unbound in
   exit_status (outcome_of r) = 1%Z /\ written (trace_of r) = []).
Proof.
  split.
  - assert (Hin : In gemini_error [gemini_text (lit "partial "); gemini_error;
                                   gemini_text (lit "late")])
      by (simpl; auto).
    assert (He : Gemini.is_error gemini_error = true) by reflexivity.
    split; [exact Hin|]. split; [exact He|].
    exact (proj1 C3_error_event_exits_without_artifact (Some example_config)
             example_instruction gemini_report_md _ Gemini.unbound _ Hin He).
  - assert (Hin : In openai_error [openai_text (lit "partial "); openai_error])
      by (simpl; auto).
    assert (He : OpenAI.is_error openai_error = true) by reflexivity.
    split; [exact Hin|]. split; [exact He|].
    exact (proj2 C3_error_event_exits_without_artifact (Some example_config)
             example_instruction openai_report_md OpenAI.DEFAULT_MODEL _
             OpenAI.unbound _ Hin He).
Defined.

(** C4: when the stream ends in [completed] and the report held at the end
    is still empty, either script exits with status 1 and writes no file. *)
Theorem C4_empty_report_exits_without_artifact :
  (forall config_file instruction path pre c s0,
     Gemini.is_completed c = true ->
     let r := Gemini.run_deep_research config_file instruction path
                (pre ++ [c]) s0 in
     Gemini.report (locals_of r) = [] ->
     exit_status (outcome_of r) = 1%Z /\ written (trace_of r) = []) /\
  (forall config_file instruction path model pre e s0,
     OpenAI.is_completed e = true ->
     let r := OpenAI.run_deep_research config_file instruction path model
                (pre ++ [e]) s0 in
     OpenAI.report (locals_of r) = [] ->
     exit_status (outcome_of r) = 1%Z /\ written (trace_of r) = []).
Proof.
  split.
  - intros [cfg|] instruction path pre c s0 _ r Hempty.
    + destruct (gemini_run_observed cfg instruction path (pre ++ [c]) s0)
        as [Hr H].
      fold r in Hr, H. rewrite Hempty in Hr.
      destruct (existsb Gemini.is_error (pre ++ [c])) eqn:Herr; simpl in H.
      * destruct H as [-> Hq]. split; [reflexivity | now apply quiet_written].
      * rewrite before_error_all in Hr by exact Herr. rewrite <- Hr in H.
        destruct H as [-> Hq]. split; [reflexivity | now apply quiet_written].
    + destruct (gemini_run_no_config instruction path (pre ++ [c]) s0)
        as (_ & Ho & Hq).
      fold r in Ho, Hq. rewrite Ho. split; [reflexivity | now apply quiet_written].
  - intros [cfg|] instruction path model pre e s0 _ r Hempty.
    + destruct (openai_run_observed cfg instruction path model (pre ++ [e]) s0)
        as [Hr H].
      fold r in Hr, H. rewrite Hempty in Hr.
      destruct (existsb OpenAI.is_error (pre ++ [e])) eqn:Herr; simpl in H.
      * destruct H as [-> Hq]. split; [reflexivity | now apply quiet_written].
      * rewrite before_error_all in Hr by exact Herr. rewrite <- Hr in H.
        destruct H as [-> Hq]. split; [reflexivity | now apply quiet_written].
    + destruct (openai_run_no_config instruction path model (pre ++ [e]) s0)
        as (_ & Ho & Hq).
      fold r in Ho, Hq. rewrite Ho. split; [reflexivity | now apply quiet_written].
Qed.

Lemma C4_witness :
  (Gemini.is_completed gemini_completed = true /\
   let r := Gemini.run_deep_research (Some example_config)
              example_instruction gemini_report_md
              ([gemini_event (lit "interaction.start"); gemini_text []]
               ++ [gemini_completed]) Gemini.unbound in
   Gemini.report (locals_of r) = [] /\
   exit_status (outcome_of r) = 1%Z /\ written (trace_of r) = []) /\
  (OpenAI.is_completed openai_completed = true /\
   let r := OpenAI.run_deep_research (Some example_config)
              example_instruction openai_report_md OpenAI.DEFAULT_MODEL
              ([openai_event (lit "response.created")] ++ [openai_completed])
              OpenAI.unbound in
   OpenAI.report (locals_of r) = [] /\
   exit_status (outcome_of r) = 1%Z /\ written (trace_of r) = []).
Proof.
  split.
  - assert (Hc : Gemini.is_completed gemini_completed = true) by reflexivity.
    split; [exact Hc|]. intros r.
    assert (He : Gemini.report (locals_of r) = []) by reflexivity.
    split; [exact He|].
    exact (proj1 C4_empty_report_exits_without_artifact (Some example_config)
             example_instruction gemini_report_md
             [gemini_event (lit "interaction.start"); gemini_text []]
             gemini_completed Gemini.unbound Hc He).
  - assert (Hc : OpenAI.is_completed openai_completed = true) by reflexivity.
    split; [exact Hc|]. intros r.
    assert (He : OpenAI.report (locals_of r) = []) by reflexivity.
    split; [exact He|].
    exact (proj2 C4_empty_report_exits_without_artifact (Some example_config)
             example_instruction openai_report_md OpenAI.DEFAULT_MODEL
             [openai_event (lit "response.created")]
             openai_completed OpenAI.unbound Hc He).
Defined.

(** ** The accumulated text *)

(** C7: in both scripts the report held when the loop stops is the report
    held before it followed by the texts of the text deltas the loop took
    from the stream, in stream order, each once; with no [error] event
    these are all the text deltas of the stream.  The fragments "Hello, ",
    "world", "!" give "Hello, world!". *)
Theorem C7_fragments_appended_in_order :
  (forall stream s,
     Gemini.report (locals_of (for_each stream Gemini.loop_body s)) =
     Gemini.report s ++
     concat (map Gemini.delta_text
               (filter Gemini.is_text_delta
                  (before_error Gemini.is_error stream)))) /\
  (forall stream s,
     OpenAI.report (locals_of (for_each stream OpenAI.loop_body s)) =
     OpenAI.report s ++
     concat (map OpenAI.delta
               (filter OpenAI.is_text_delta
                  (before_error OpenAI.is_error stream)))) /\
  (forall stream s, existsb Gemini.is_error stream = false ->
     Gemini.report (locals_of (for_each stream Gemini.loop_body s)) =
     Gemini.report s ++
     concat (map Gemini.delta_text (filter Gemini.is_text_delta stream))) /\
  (forall stream s, existsb OpenAI.is_error stream = false ->
     OpenAI.report (locals_of (for_each stream OpenAI.loop_body s)) =
     OpenAI.report s ++
     concat (map OpenAI.delta (filter OpenAI.is_text_delta stream))) /\
  Gemini.report (locals_of (for_each
    [gemini_text (lit "Hello, "); gemini_text (lit "world");
     gemini_text (lit "!")] Gemini.loop_body Gemini.unbound))
  = lit "Hello, world!" /\
  OpenAI.report (locals_of (for_each
    [openai_text (lit "Hello, "); openai_text (lit "world");
     openai_text (lit "!")] OpenAI.loop_body OpenAI.unbound))
  = lit "Hello, world!".
Proof.
  assert (G : forall stream s,
     Gemini.report (locals_of (for_each stream Gemini.loop_body s)) =
     Gemini.report s ++
     concat (map Gemini.delta_text
               (filter Gemini.is_text_delta
                  (before_error Gemini.is_error stream)))).
  { intros stream s.
    destruct (for_each_spec Gemini.loop_body Gemini.report Gemini.is_error
                Gemini.fragment gemini_body_error gemini_body_other stream s)
      as (t & l & Hl & Hr & _).
    rewrite Hl. unfold locals_of; simpl. rewrite Hr.
    unfold Gemini.fragment. now rewrite fragments_filter. }
  assert (O : forall stream s,
     OpenAI.report (locals_of (for_each stream OpenAI.loop_body s)) =
     OpenAI.report s ++
     concat (map OpenAI.delta
               (filter OpenAI.is_text_delta
                  (before_error OpenAI.is_error stream)))).
  { intros stream s.
    destruct (for_each_spec OpenAI.loop_body OpenAI.report OpenAI.is_error
                OpenAI.fragment openai_body_error openai_body_other stream s)
      as (t & l & Hl & Hr & _).
    rewrite Hl. unfold locals_of; simpl. rewrite Hr.
    unfold OpenAI.fragment. now rewrite fragments_filter. }
  split; [exact G|]. split; [exact O|]. split; [|split].
  - intros stream s H. rewrite G. now rewrite before_error_all.
  - intros stream s H. rewrite O. now rewrite before_error_all.
  - split; reflexivity.
Qed.

Lemma C7_witness :
  (existsb Gemini.is_error
     [gemini_text (lit "a"); gemini_completed; gemini_text (lit "b")] = false /\
   Gemini.report (locals_of (for_each
     [gemini_text (lit "a"); gemini_completed; gemini_text (lit "b")]
     Gemini.loop_body Gemini.unbound)) =
   Gemini.report Gemini.unbound ++
   concat (map Gemini.delta_text (filter Gemini.is_text_delta
     [gemini_text (lit "a"); gemini_completed; gemini_text (lit "b")]))) /\
  (existsb OpenAI.is_error
     [openai_text (lit "a"); openai_completed; openai_text (lit "b")] = false /\
   OpenAI.report (locals_of (for_each
     [openai_text (lit "a"); openai_completed; openai_text (lit "b")]
     OpenAI.loop_body OpenAI.unbound)) =
   OpenAI.report OpenAI.unbound ++
   concat (map OpenAI.delta (filter OpenAI.is_text_delta
     [openai_text (lit "a"); openai_completed; openai_text (lit "b")]))).
Proof.
  split.
  - assert (H : existsb Gemini.is_error
      [gemini_text (lit "a"); gemini_completed; gemini_text (lit "b")] = false)
      by reflexivity.
    split; [exact H|].
    exact (proj1 (proj2 (proj2 C7_fragments_appended_in_order)) _
             Gemini.unbound H).
  - assert (H : existsb OpenAI.is_error
      [openai_text (lit "a"); openai_completed; openai_text (lit "b")] = false)
      by reflexivity.
    split; [exact H|].
    exact (proj1 (proj2 (proj2 (proj2 C7_fragments_appended_in_order))) _
             OpenAI.unbound H).
Defined.

(** ** After [completed] *)

Lemma bind_ext {S A B} (m : Run S A) (k k' : A -> Run S B) (s : S) :
  (forall a s', k a s' = k' a s') -> bind m k s = bind m k' s.
Proof.
  intros H. unfold bind. destruct (m s) as [[t s'] [a|code]]; [|reflexivity].
  now rewrite H.
Qed.

Lemma gemini_body_completed (c : Gemini.Chunk) (s : Gemini.locals) :
  Gemini.is_completed c = true ->
  Gemini.loop_body c s =
  print [Text NL; Text NL; Text (lit "[Complete] Research finished.")] s.
Proof.
  unfold Gemini.is_completed, Gemini.loop_body. intros H.
  apply str_eqb_eq in H. rewrite H. eval_tags. reflexivity.
Qed.

Lemma openai_body_completed (e : OpenAI.Event) (s : OpenAI.locals) :
  OpenAI.is_completed e = true ->
  OpenAI.loop_body e s =
  print [Text NL; Text NL; Text (lit "[Complete] Research finished.")] s.
Proof.
  unfold OpenAI.is_completed, OpenAI.loop_body. intros H.
  apply str_eqb_eq in H. rewrite H. cbv zeta. eval_tags. reflexivity.
Qed.

(** C2, as the code has it: neither loop stops at a [completed] event.  The
    event prints the completion lines, leaves the report as it is and ends
    nothing; the events after it are then taken from the stream and
    handled like those before it. *)
Theorem C2_completed_only_prints :
  (forall pre c post s, Gemini.is_completed c = true ->
     for_each (pre ++ c :: post) Gemini.loop_body s =
     (for_each pre Gemini.loop_body ;;
      print [Text NL; Text NL; Text (lit "[Complete] Research finished.")] ;;
      for_each post Gemini.loop_body) s) /\
  (forall pre e post s, OpenAI.is_completed e = true ->
     for_each (pre ++ e :: post) OpenAI.loop_body s =
     (for_each pre OpenAI.loop_body ;;
      print [Text NL; Text NL; Text (lit "[Complete] Research finished.")] ;;
      for_each post OpenAI.loop_body) s).
Proof.
  split.
  - intros pre c post s H. rewrite for_each_app. apply bind_ext.
    intros [] s'. simpl. unfold bind.
    now rewrite (gemini_body_completed c s' H).
  - intros pre e post s H. rewrite for_each_app. apply bind_ext.
    intros [] s'. simpl. unfold bind.
    now rewrite (openai_body_completed e s' H).
Qed.

Lemma C2_witness :
  (Gemini.is_completed gemini_completed = true /\
   for_each ([gemini_text (lit "a")] ++ gemini_completed ::
             [gemini_text (lit "b")]) Gemini.loop_body Gemini.unbound =
   (for_each [gemini_text (lit "a")] Gemini.loop_body ;;
    print [Text NL; Text NL; Text (lit "[Complete] Research finished.")] ;;
    for_each [gemini_text (lit "b")] Gemini.loop_body) Gemini.unbound) /\
  (OpenAI.is_completed openai_completed = true /\
   for_each ([openai_text (lit "a")] ++ openai_completed ::
             [openai_text (lit "b")]) OpenAI.loop_body OpenAI.unbound =
   (for_each [openai_text (lit "a")] OpenAI.loop_body ;;
    print [Text NL; Text NL; Text (lit "[Complete] Research finished.")] ;;
    for_each [openai_text (lit "b")] OpenAI.loop_body) OpenAI.unbound).
Proof.
  split.
  - assert (H : Gemini.is_completed gemini_completed = true) by reflexivity.
    split; [exact H|].
    exact (proj1 C2_completed_only_prints [gemini_text (lit "a")]
             gemini_completed [gemini_text (lit "b")] Gemini.unbound H).
  - assert (H : OpenAI.is_completed openai_completed = true) by reflexivity.
    split; [exact H|].
    exact (proj2 C2_completed_only_prints [openai_text (lit "a")]
             openai_completed [openai_text (lit "b")] OpenAI.unbound H).
Defined.

(** C2 as stated fails in both scripts: a text delta that follows
    [completed] is appended to the report and echoed, and an [error] that
    follows [completed] ends the run with status 1. *)
Lemma C2_events_after_completed_are_handled :
  (for_each [gemini_completed; gemini_text (lit "late")]
     Gemini.loop_body Gemini.unbound =
   ([Stdout [Text NL; Text NL; Text (lit "[Complete] Research finished.");
             Text NL];
     Stdout [Text (lit "late"); Text []]],
    {| Gemini.l_interaction_id := None; Gemini.report := lit "late" |},
    Return tt) /\
   outcome_of (for_each [gemini_completed; gemini_error]
                 Gemini.loop_body Gemini.unbound) = SystemExit 1%Z) /\
  (for_each [openai_completed; openai_text (lit "late")]
     OpenAI.loop_body OpenAI.unbound =
   ([Stdout [Text NL; Text NL; Text (lit "[Complete] Research finished.");
             Text NL];
     Stdout [Text (lit "late"); Text []]],
    {| OpenAI.report := lit "late" |},
    Return tt) /\
   outcome_of (for_each [openai_completed; openai_error]
                 OpenAI.loop_body OpenAI.unbound) = SystemExit 1%Z).
Proof. repeat split. Qed.

(** ** The timestamp *)

Lemma decimal_value_snoc (s : str) (c : char) :
  decimal_value (s ++ [c]) = (10 * decimal_value s + (c - 48))%N.
Proof. unfold decimal_value. now rewrite fold_left_app. Qed.

Lemma zero_padded_decimal (width : nat) : forall n,
  (n < 10 ^ N.of_nat width)%N -> is_decimal width n (zero_padded width n).
Proof.
  induction width as [|w IH]; intros n Hn.
  - simpl in Hn. assert (n = 0%N) by lia. subst. repeat split.
  - assert (Hq : (n / 10 < 10 ^ N.of_nat w)%N).
    { apply N.Div0.div_lt_upper_bound.
      rewrite Nat2N.inj_succ, N.pow_succ_r' in Hn. exact Hn. }
    destruct (IH _ Hq) as (Hl & Hd & Hv).
    assert (Hm : (n mod 10 < 10)%N) by (apply N.mod_lt; lia).
    cbn [zero_padded]. repeat split.
    + rewrite length_app, Hl. cbn [length]. lia.
    + rewrite forallb_app, Hd. cbn [forallb andb].
      unfold is_digit, ascii_isdigit, between.
      rewrite andb_true_r, andb_true_iff, !N.leb_le. clear - Hm.
      generalize dependent (n mod 10)%N; intros; lia.
    + rewrite decimal_value_snoc, Hv.
      clear. pose proof (N.Div0.div_mod n 10) as E.
      generalize dependent (n / 10)%N; generalize dependent (n mod 10)%N.
      intros; lia.
Qed.

Lemma strftime_Ymd_HMS (now : datetime) :
  strftime now (lit "%Y%m%d_%H%M%S") =
  zero_padded 4 (year now) ++ zero_padded 2 (month now) ++
  zero_padded 2 (day now) ++ lit "_" ++ zero_padded 2 (hour now) ++
  zero_padded 2 (minute now) ++ zero_padded 2 (second now).
Proof.
  change (lit "%Y%m%d_%H%M%S")
    with [37; 89; 37; 109; 37; 100; 95; 37; 72; 37; 77; 37; 83]%N.
  cbn [strftime directive N.eqb Pos.eqb PERCENT].
  rewrite app_nil_r. repeat rewrite <- app_assoc. reflexivity.
Qed.

(** ** The output path *)

Lemma gemini_generated_path (U : unicodedata) (args : Gemini.Args)
    (now : datetime) :
  given (Gemini.output args) = false ->
  Gemini.output_path U args now =
  Gemini.OUTPUT_DIR //
    (strftime now (lit "%Y%m%d_%H%M%S") ++ lit "_" ++
     Gemini.slugify U (Gemini.instruction args) 60 ++ lit ".md").
Proof. unfold Gemini.output_path. now intros ->. Qed.

Lemma openai_generated_path (U : unicodedata) (args : OpenAI.Args)
    (now : datetime) :
  given (OpenAI.output args) = false ->
  OpenAI.output_path U args now =
  OpenAI.OUTPUT_DIR //
    (strftime now (lit "%Y%m%d_%H%M%S") ++ lit "_" ++
     OpenAI.slugify U (OpenAI.instruction args) 60 ++ lit ".md").
Proof. unfold OpenAI.output_path. now intros ->. Qed.

(** C8, as the code has it: a non-empty [-o] value is joined, unchanged,
    onto the script's output directory; an empty one counts as not given
    and the generated name is used. *)
Theorem C8_explicit_filename_verbatim :
  (forall U args now name,
     Gemini.output args = Some name -> name <> [] ->
     Gemini.output_path U args now = Gemini.OUTPUT_DIR // name) /\
  (forall U args now name,
     OpenAI.output args = Some name -> name <> [] ->
     OpenAI.output_path U args now = OpenAI.OUTPUT_DIR // name).
Proof.
  split; intros U args now name Ho Hn.
  - unfold Gemini.output_path. rewrite Ho. simpl.
    destruct name; [contradiction | reflexivity].
  - unfold OpenAI.output_path. rewrite Ho. simpl.
    destruct name; [contradiction | reflexivity].
Qed.

Lemma C8_witness :
  (forall U,
     Gemini.output {| Gemini.instruction := example_instruction;
                      Gemini.output := Some (lit "../notes/Q1 report") |}
     = Some (lit "../notes/Q1 report") /\
     lit "../notes/Q1 report" <> [] /\
     Gemini.output_path U
       {| Gemini.instruction := example_instruction;
          Gemini.output := Some (lit "../notes/Q1 report") |} example_now
     = Gemini.OUTPUT_DIR // lit "../notes/Q1 report") /\
  (forall U,
     lit "../notes/Q1 report" <> [] /\
     OpenAI.output_path U
       {| OpenAI.instruction := example_instruction;
          OpenAI.output := Some (lit "../notes/Q1 report");
          OpenAI.model := OpenAI.DEFAULT_MODEL |} example_now
     = OpenAI.OUTPUT_DIR // lit "../notes/Q1 report").
Proof.
  assert (Hn : lit "../notes/Q1 report" <> []) by discriminate.
  split; intros U.
  - split; [reflexivity|]. split; [exact Hn|].
    exact (proj1 C8_explicit_filename_verbatim U
             {| Gemini.instruction := example_instruction;
                Gemini.output := Some (lit "../notes/Q1 report") |}
             example_now (lit "../notes/Q1 report") eq_refl Hn).
  - split; [exact Hn|].
    exact (proj2 C8_explicit_filename_verbatim U
             {| OpenAI.instruction := example_instruction;
                OpenAI.output := Some (lit "../notes/Q1 report");
                OpenAI.model := OpenAI.DEFAULT_MODEL |}
             example_now (lit "../notes/Q1 report") eq_refl Hn).
Defined.

(** C8 as stated fails for the empty name: with [-o ""] both scripts take
    the generated name, not the output directory joined with the empty
    string. *)
Lemma C8_empty_name_is_not_used :
  (forall U,
     Gemini.output_path U
       {| Gemini.instruction := lit "q"; Gemini.output := Some [] |}
       example_now
     = Gemini.OUTPUT_DIR // lit "20250301_100000_q.md") /\
  Gemini.OUTPUT_DIR // lit "20250301_100000_q.md" <> Gemini.OUTPUT_DIR // [] /\
  (forall U,
     OpenAI.output_path U
       {| OpenAI.instruction := lit "q"; OpenAI.output := Some [];
          OpenAI.model := OpenAI.DEFAULT_MODEL |}
       example_now
     = OpenAI.OUTPUT_DIR // lit "20250301_100000_q.md") /\
  OpenAI.OUTPUT_DIR // lit "20250301_100000_q.md" <> OpenAI.OUTPUT_DIR // [].
Proof.
  split; [intros U; reflexivity|]. split; [discriminate|].
  split; [intros U; reflexivity | discriminate].
Qed.

(** C9: with no [-o] value (or an empty one) the file name is the
    timestamp, an underscore, the slug of the instruction and [.md], the
    timestamp being the year in four digits, month, day, an underscore,
    hour, minute and second in two digits each.  The instruction
    "Impact of tariffs on semiconductor supply chains" at
    2025-03-01 10:00:00 gives
    [20250301_100000_impact-of-tariffs-on-semiconductor-supply-chains.md]. *)
Theorem C9_generated_filename :
  (forall now, valid_datetime now ->
     exists Y m d H M S,
       strftime now (lit "%Y%m%d_%H%M%S") =
         Y ++ m ++ d ++ lit "_" ++ H ++ M ++ S /\
       is_decimal 4 (year now) Y /\ is_decimal 2 (month now) m /\
       is_decimal 2 (day now) d /\ is_decimal 2 (hour now) H /\
       is_decimal 2 (minute now) M /\ is_decimal 2 (second now) S) /\
  (forall U args now, given (Gemini.output args) = false ->
     Gemini.output_path U args now =
     Gemini.OUTPUT_DIR //
       (strftime now (lit "%Y%m%d_%H%M%S") ++ lit "_" ++
        Gemini.slugify U (Gemini.instruction args) 60 ++ lit ".md")) /\
  (forall U args now, given (OpenAI.output args) = false ->
     OpenAI.output_path U args now =
     OpenAI.OUTPUT_DIR //
       (strftime now (lit "%Y%m%d_%H%M%S") ++ lit "_" ++
        OpenAI.slugify U (OpenAI.instruction args) 60 ++ lit ".md")) /\
  (forall U,
     Gemini.output_path U
       {| Gemini.instruction := example_instruction; Gemini.output := None |}
       example_now =
     Gemini.OUTPUT_DIR //
       lit "20250301_100000_impact-of-tariffs-on-semiconductor-supply-chains.md") /\
  (forall U model,
     OpenAI.output_path U
       {| OpenAI.instruction := example_instruction; OpenAI.output := None;
          OpenAI.model := model |}
       example_now =
     OpenAI.OUTPUT_DIR //
       lit "20250301_100000_impact-of-tariffs-on-semiconductor-supply-chains.md").
Proof.
  split; [|split; [|split; [|split]]].
  - intros now (Hy & Hm & Hd & HH & HM & HS).
    exists (zero_padded 4 (year now)), (zero_padded 2 (month now)),
      (zero_padded 2 (day now)), (zero_padded 2 (hour now)),
      (zero_padded 2 (minute now)), (zero_padded 2 (second now)).
    split; [apply strftime_Ymd_HMS|].
    repeat match goal with |- _ /\ _ => split end;
      apply zero_padded_decimal; simpl; lia.
  - intros; now apply gemini_generated_path.
  - intros; now apply openai_generated_path.
  - intros U; reflexivity.
  - intros U model; reflexivity.
Qed.

Lemma C9_witness :
  valid_datetime example_now /\
  (exists Y m d H M S,
     strftime example_now (lit "%Y%m%d_%H%M%S") =
       Y ++ m ++ d ++ lit "_" ++ H ++ M ++ S /\
     is_decimal 4 2025 Y /\ is_decimal 2 3 m /\ is_decimal 2 1 d /\
     is_decimal 2 10 H /\ is_decimal 2 0 M /\ is_decimal 2 0 S) /\
  forall U,
    given (Gemini.output {| Gemini.instruction := lit "q";
                            Gemini.output := None |}) = false /\
    Gemini.output_path U
      {| Gemini.instruction := lit "q"; Gemini.output := None |} example_now =
    Gemini.OUTPUT_DIR //
      (strftime example_now (lit "%Y%m%d_%H%M%S") ++ lit "_" ++
       Gemini.slugify U (lit "q") 60 ++ lit ".md").
Proof.
  assert (Hv : valid_datetime example_now)
    by (unfold valid_datetime; simpl; lia).
  split; [exact Hv|]. split.
  - exact (proj1 C9_generated_filename example_now Hv).
  - intros U. split; [reflexivity|].
    exact (proj1 (proj2 C9_generated_filename) U
             {| Gemini.instruction := lit "q"; Gemini.output := None |}
             example_now eq_refl).
Defined.

Lemma openai_slugify_eq (U : unicodedata) (text : str) (max_len : Z) :
  OpenAI.slugify U text max_len = Gemini.slugify U text max_len.
Proof. unfold OpenAI.slugify, Gemini.slugify. reflexivity. Qed.

(** C10: the two [slugify] functions are equal on every input, and with
    the same instruction, [-o] value and clock the two scripts choose the
    same file name, each under its own output directory. *)
Theorem C10_variants_agree :
  (forall U text max_len,
     Gemini.slugify U text max_len = OpenAI.slugify U text max_len) /\
  (forall U instruction output model now,
     exists filename,
       Gemini.output_path U
         {| Gemini.instruction := instruction; Gemini.output := output |} now
       = Gemini.OUTPUT_DIR // filename /\
       OpenAI.output_path U
         {| OpenAI.instruction := instruction; OpenAI.output := output;
            OpenAI.model := model |} now
       = OpenAI.OUTPUT_DIR // filename /\
       filename =
         if given output then value output
         else strftime now (lit "%Y%m%d_%H%M%S") ++ lit "_" ++
              Gemini.slugify U instruction 60 ++ lit ".md") /\
  Gemini.OUTPUT_DIR <> OpenAI.OUTPUT_DIR.
Proof.
  split; [|split].
  - intros U text max_len. symmetry. apply openai_slugify_eq.
  - intros U instruction output model now.
    unfold Gemini.output_path, OpenAI.output_path; simpl.
    destruct (given output); eexists; repeat split.
  - discriminate.
Qed.

(** ** The slug *)

(** C5 fails on the code: for ['a' * 59 + ' b'] both [slugify] functions
    return fifty-nine times the letter a followed by a hyphen, so the
    slug ends with a hyphen. *)
Theorem C5_slug_ends_with_hyphen :
  (forall U, Gemini.slugify U long_instruction 60 = repeat 97%N 59 ++ lit "-") /\
  (forall U, OpenAI.slugify U long_instruction 60 = repeat 97%N 59 ++ lit "-") /\
  (forall U, ends_with_hyphen (Gemini.slugify U long_instruction 60) = true) /\
  (forall U, ends_with_hyphen (OpenAI.slugify U long_instruction 60) = true).
Proof. repeat split. Qed.

(** C6 fails on the code: for ['a' * 59 + ' b'] the slug of the slug has
    lost the trailing hyphen, and differs from the slug. *)
Theorem C6_slug_of_slug_differs :
  (forall U,
     Gemini.slugify U (Gemini.slugify U long_instruction 60) 60 =
       repeat 97%N 59 /\
     Gemini.slugify U (Gemini.slugify U long_instruction 60) 60 <>
       Gemini.slugify U long_instruction 60) /\
  (forall U,
     OpenAI.slugify U (OpenAI.slugify U long_instruction 60) 60 =
       repeat 97%N 59 /\
     OpenAI.slugify U (OpenAI.slugify U long_instruction 60) 60 <>
       OpenAI.slugify U long_instruction 60).
Proof. split; intros U; split; [reflexivity | discriminate | reflexivity | discriminate]. Qed.

(** *** What holds of every slug *)

Lemma lstrip_suffix (chars : char -> bool) (s : str) :
  exists p, s = p ++ lstrip chars s.
Proof.
  induction s as [|c s [p IH]]; [now exists []|]. simpl.
  destruct (chars c); [exists (c :: p); simpl; congruence | now exists []].
Qed.

Lemma rstrip_prefix (chars : char -> bool) (s : str) :
  exists q, s = rstrip chars s ++ q.
Proof.
  unfold rstrip. destruct (lstrip_suffix chars (rev s)) as [p H].
  exists (rev p). rewrite <- rev_app_distr, <- H. now rewrite rev_involutive.
Qed.

Lemma slice_to_firstn (s : str) (n : Z) : exists k, slice_to s n = firstn k s.
Proof. unfold slice_to. destruct (n <? 0)%Z; eauto. Qed.

Lemma slice_to_prefix (s : str) (n : Z) : exists q, s = slice_to s n ++ q.
Proof.
  destruct (slice_to_firstn s n) as [k ->]. exists (skipn k s).
  now rewrite firstn_skipn.
Qed.

Lemma lstrip_head (chars : char -> bool) (s : str) (c : char) (r : str) :
  lstrip chars s = c :: r -> chars c = false.
Proof.
  induction s as [|x s IH]; simpl; [discriminate|].
  destruct (chars x) eqn:X; [exact IH|]. intros H; injection H as -> _. exact X.
Qed.

Lemma prefix_starts_with_hyphen (p q : str) :
  starts_with_hyphen (p ++ q) = false -> starts_with_hyphen p = false.
Proof. destruct p; simpl; auto. Qed.

Lemma In_lstrip (chars : char -> bool) (s : str) (c : char) :
  In c (lstrip chars s) -> In c s.
Proof.
  destruct (lstrip_suffix chars s) as [p H]. intros Hc. rewrite H.
  apply in_or_app; now right.
Qed.

Lemma In_strip (chars : char -> bool) (s : str) (c : char) :
  In c (strip chars s) -> In c s.
Proof.
  unfold strip. intros H. apply (In_lstrip chars).
  destruct (rstrip_prefix chars (lstrip chars s)) as [q Hq].
  rewrite Hq. apply in_or_app; now left.
Qed.

Lemma In_slice_to (s : str) (n : Z) (c : char) : In c (slice_to s n) -> In c s.
Proof.
  destruct (slice_to_prefix s n) as [q Hq]. intros H. rewrite Hq.
  apply in_or_app; now left.
Qed.

Lemma In_re_sub_runs (cls : char -> bool) (repl : str) (s : str) (c : char) :
  forall in_run, In c (re_sub_runs cls repl in_run s) ->
  In c repl \/ (In c s /\ cls c = false).
Proof.
  induction s as [|x s IH]; intros in_run; simpl; [tauto|].
  destruct (cls x) eqn:X.
  - intros H. apply in_app_or in H as [H|H].
    + destruct in_run; [destruct H | now left].
    + destruct (IH _ H) as [?|[? ?]]; auto.
  - intros [<-|H]; [auto|]. destruct (IH _ H) as [?|[? ?]]; auto.
Qed.

(** The characters of a slug come from the lower-cased text, where they
    are alphanumeric and neither space nor underscore, or are hyphens. *)
Lemma slug_chars (U : unicodedata) (text : str) (max_len : Z) (c : char) :
  In c (Gemini.slugify U text max_len) ->
  c = HYPHEN \/
  (In c (lower U text) /\ isalnum U c = true /\ isspace U c = false /\
   c <> UNDERSCORE).
Proof.
  unfold Gemini.slugify. intros H.
  apply In_slice_to, In_strip, In_re_sub_runs in H.
  destruct H as [[<-|[]]|[H Hs]]; [now left|].
  unfold re_sub_class_empty in H. apply filter_In in H as [Hin Hk].
  unfold space_or_underscore, re_s in Hs. apply orb_false_iff in Hs as [Hsp Hu].
  unfold not_word_space_hyphen, re_w, re_s in Hk.
  rewrite negb_involutive, Hsp, Hu, !orb_false_r in Hk.
  apply orb_true_iff in Hk as [Hk|Hk].
  - right. repeat split; auto. now apply N.eqb_neq.
  - left. now apply N.eqb_eq.
Qed.

Lemma strip_no_leading_hyphen (s : str) :
  starts_with_hyphen (strip hyphen_set s) = false.
Proof.
  unfold strip.
  destruct (rstrip_prefix hyphen_set (lstrip hyphen_set s)) as [q Hq].
  apply prefix_starts_with_hyphen with (q := q). rewrite <- Hq.
  destruct (lstrip hyphen_set s) as [|c r] eqn:L; [reflexivity|].
  exact (lstrip_head _ _ L).
Qed.

Lemma strip_no_trailing_hyphen (s : str) :
  ends_with_hyphen (strip hyphen_set s) = false.
Proof.
  unfold strip, rstrip, ends_with_hyphen. rewrite rev_involutive.
  destruct (lstrip hyphen_set (rev (lstrip hyphen_set s))) as [|c r] eqn:L;
    [reflexivity|].
  exact (lstrip_head _ _ L).
Qed.

Lemma slice_to_60 (s : str) : slice_to s 60 = firstn 60 s.
Proof. reflexivity. Qed.

Lemma slice_to_60_short (s : str) :
  length (slice_to s 60) < 60 -> slice_to s 60 = s.
Proof.
  rewrite slice_to_60. intros H.
  destruct (Nat.le_gt_cases (length s) 60) as [Hle|Hgt].
  - now apply firstn_all2.
  - rewrite length_firstn in H. lia.
Qed.

Lemma gemini_slug_length (U : unicodedata) (text : str) :
  length (Gemini.slugify U text 60) <= 60.
Proof. unfold Gemini.slugify. rewrite slice_to_60. apply firstn_le_length. Qed.

Lemma gemini_slug_no_leading_hyphen (U : unicodedata) (text : str)
    (max_len : Z) :
  starts_with_hyphen (Gemini.slugify U text max_len) = false.
Proof.
  unfold Gemini.slugify.
  match goal with |- context [slice_to ?s _] =>
    destruct (slice_to_prefix s max_len) as [q Hq];
    apply prefix_starts_with_hyphen with (q := q); rewrite <- Hq
  end.
  apply strip_no_leading_hyphen.
Qed.

Lemma gemini_short_slug_no_trailing_hyphen (U : unicodedata) (text : str) :
  length (Gemini.slugify U text 60) < 60 ->
  ends_with_hyphen (Gemini.slugify U text 60) = false.
Proof.
  unfold Gemini.slugify. intros H. rewrite (slice_to_60_short _ H).
  apply strip_no_trailing_hyphen.
Qed.

Lemma slug_char_cases (c : char) :
  slug_char c = true <->
  ((97 <= c <= 122) \/ (48 <= c <= 57) \/ c = 45)%N.
Proof.
  unfold slug_char, ascii_islower, ascii_isdigit, between, HYPHEN.
  rewrite !orb_true_iff, !andb_true_iff, !N.leb_le, N.eqb_eq. tauto.
Qed.

Lemma slug_char_kept (U : unicodedata) (c : char) :
  slug_char c = true ->
  is_ascii c = true /\ ascii_tolower c = c /\
  not_word_space_hyphen U c = false /\ space_or_underscore U c = false.
Proof.
  intros H. apply slug_char_cases in H.
  unfold ascii_tolower, not_word_space_hyphen, space_or_underscore, re_w, re_s,
    isalnum, isspace, ascii_isalnum, ascii_isspace, ascii_isupper,
    ascii_islower, ascii_isdigit, is_ascii, between, HYPHEN, UNDERSCORE.
  destruct H as [H|[H|H]]; decide_ranges; repeat split.
Qed.

Lemma ascii_lower_slug_char (U : unicodedata) (c : char) :
  is_ascii c = true -> isalnum U (ascii_tolower c) = true ->
  slug_char (ascii_tolower c) = true.
Proof.
  unfold isalnum, ascii_tolower, ascii_isupper, between, is_ascii.
  intros Ha. apply N.ltb_lt in Ha.
  destruct (65 <=? c)%N eqn:L1; destruct (c <=? 90)%N eqn:L2; simpl;
    try apply N.leb_le in L1; try apply N.leb_le in L2;
    try apply N.leb_gt in L1; try apply N.leb_gt in L2.
  - intros _. apply slug_char_cases. lia.
  - replace (c <? 128)%N with true by (symmetry; apply N.ltb_lt; lia).
    unfold ascii_isalnum, ascii_isdigit, ascii_isupper, ascii_islower, between.
    rewrite !orb_true_iff, !andb_true_iff, !N.leb_le. intros H.
    apply slug_char_cases. lia.
  - replace (c <? 128)%N with true by (symmetry; apply N.ltb_lt; lia).
    unfold ascii_isalnum, ascii_isdigit, ascii_isupper, ascii_islower, between.
    rewrite !orb_true_iff, !andb_true_iff, !N.leb_le. intros H.
    apply slug_char_cases. lia.
  - replace (c <? 128)%N with true by (symmetry; apply N.ltb_lt; lia).
    unfold ascii_isalnum, ascii_isdigit, ascii_isupper, ascii_islower, between.
    rewrite !orb_true_iff, !andb_true_iff, !N.leb_le. intros H.
    apply slug_char_cases. lia.
Qed.

Lemma lower_ascii (U : unicodedata) (text : str) :
  forallb is_ascii text = true -> lower U text = map ascii_tolower text.
Proof. unfold lower. now intros ->. Qed.

Lemma gemini_ascii_slug_chars (U : unicodedata) (text : str) (max_len : Z) :
  forallb is_ascii text = true ->
  forallb slug_char (Gemini.slugify U text max_len) = true.
Proof.
  intros Ha. apply forallb_forall. intros c Hc.
  apply slug_chars in Hc. destruct Hc as [->|(Hin & Hal & _)]; [reflexivity|].
  rewrite (lower_ascii U text Ha) in Hin.
  apply in_map_iff in Hin as (x & <- & Hx).
  apply (ascii_lower_slug_char U); [|exact Hal].
  exact (proj1 (forallb_forall is_ascii text) Ha x Hx).
Qed.

Lemma filter_keeps_all {A} (keep : A -> bool) (l : list A) :
  (forall x, In x l -> keep x = true) -> filter keep l = l.
Proof.
  induction l as [|x l IH]; intros H; simpl; [reflexivity|].
  rewrite (H x (or_introl eq_refl)), IH; [reflexivity|].
  intros y Hy; apply H; now right.
Qed.

Lemma re_sub_runs_no_match (cls : char -> bool) (repl : str) (s : str) :
  (forall c, In c s -> cls c = false) ->
  forall in_run, re_sub_runs cls repl in_run s = s.
Proof.
  induction s as [|x s IH]; intros H in_run; simpl; [reflexivity|].
  rewrite (H x (or_introl eq_refl)), IH; [reflexivity|].
  intros y Hy; apply H; now right.
Qed.

Lemma strip_nothing (s : str) :
  starts_with_hyphen s = false -> ends_with_hyphen s = false ->
  strip hyphen_set s = s.
Proof.
  unfold strip, rstrip, ends_with_hyphen. intros Hs He.
  assert (L : forall x, starts_with_hyphen x = false -> lstrip hyphen_set x = x).
  { intros [|c x]; simpl; [reflexivity|]. unfold hyphen_set. now intros ->. }
  rewrite (L s Hs), (L (rev s)); [apply rev_involutive|].
  unfold starts_with_hyphen. exact He.
Qed.

(** A string of [[a-z0-9-]] with no hyphen at either end and at most 60
    characters is its own slug. *)
Lemma gemini_slug_fixed_point (U : unicodedata) (s : str) :
  forallb slug_char s = true -> starts_with_hyphen s = false ->
  ends_with_hyphen s = false -> length s <= 60 ->
  Gemini.slugify U s 60 = s.
Proof.
  intros Hc Hs He Hl.
  assert (K : forall c, In c s -> slug_char c = true)
    by (now apply forallb_forall).
  assert (Hlow : lower U s = s).
  { rewrite lower_ascii.
    - rewrite <- (map_id s) at 2. apply map_ext_in. intros c Hin.
      apply (slug_char_kept U c (K c Hin)).
    - apply forallb_forall. intros c Hin. apply (slug_char_kept U c (K c Hin)). }
  unfold Gemini.slugify. rewrite Hlow. unfold re_sub_class_empty.
  rewrite filter_keeps_all.
  - rewrite re_sub_runs_no_match.
    + rewrite (@strip_nothing s Hs He), slice_to_60. now apply firstn_all2.
    + intros c Hin. apply (slug_char_kept U c (K c Hin)).
  - intros c Hin. destruct (slug_char_kept U c (K c Hin)) as (_ & _ & -> & _).
    reflexivity.
Qed.

(** A slug made with the default [max_len] has at most 60 characters. *)
Theorem slug_length_at_most_60 :
  forall U text,
    length (Gemini.slugify U text 60) <= 60 /\
    length (OpenAI.slugify U text 60) <= 60.
Proof.
  intros U text. change OpenAI.slugify with Gemini.slugify.
  split; apply gemini_slug_length.
Qed.

(** A slug never starts with a hyphen. *)
Theorem slug_has_no_leading_hyphen :
  forall U text max_len,
    starts_with_hyphen (Gemini.slugify U text max_len) = false /\
    starts_with_hyphen (OpenAI.slugify U text max_len) = false.
Proof.
  intros U text max_len. change OpenAI.slugify with Gemini.slugify.
  split; apply gemini_slug_no_leading_hyphen.
Qed.

(** Every character of a slug is a hyphen, or a character that Python
    counts as alphanumeric and that is neither white space nor the
    underscore. *)
Theorem slug_characters :
  forall U text max_len,
    let ok c := c = HYPHEN \/
      (isalnum U c = true /\ isspace U c = false /\ c <> UNDERSCORE) in
    Forall ok (Gemini.slugify U text max_len) /\
    Forall ok (OpenAI.slugify U text max_len).
Proof.
  intros U text max_len ok. change OpenAI.slugify with Gemini.slugify.
  assert (H : Forall ok (Gemini.slugify U text max_len)).
  { apply Forall_forall. intros c Hc. apply slug_chars in Hc.
    destruct Hc as [->|(_ & H)]; [now left | now right]. }
  split; exact H.
Qed.

(** The slug of an all-ASCII text consists of characters of [[a-z0-9-]]. *)
Theorem ascii_slug_characters :
  forall U text max_len, forallb is_ascii text = true ->
    forallb slug_char (Gemini.slugify U text max_len) = true /\
    forallb slug_char (OpenAI.slugify U text max_len) = true.
Proof.
  intros U text max_len H. change OpenAI.slugify with Gemini.slugify.
  split; now apply gemini_ascii_slug_chars.
Qed.

Lemma ascii_slug_characters_witness :
  forallb is_ascii (lit "Hello, World_2025 -- draft!") = true /\
  forall U,
    forallb slug_char
      (Gemini.slugify U (lit "Hello, World_2025 -- draft!") 60) = true /\
    forallb slug_char
      (OpenAI.slugify U (lit "Hello, World_2025 -- draft!") 60) = true.
Proof.
  assert (H : forallb is_ascii (lit "Hello, World_2025 -- draft!") = true)
    by reflexivity.
  split; [exact H|]. intros U.
  exact (ascii_slug_characters U (lit "Hello, World_2025 -- draft!") 60 H).
Defined.

(** A slug that the default [max_len] did not cut (it is shorter than 60
    characters) does not end with a hyphen. *)
Theorem short_slug_has_no_trailing_hyphen :
  forall U text,
    (length (Gemini.slugify U text 60) < 60 ->
     ends_with_hyphen (Gemini.slugify U text 60) = false) /\
    (length (OpenAI.slugify U text 60) < 60 ->
     ends_with_hyphen (OpenAI.slugify U text 60) = false).
Proof.
  intros U text. change OpenAI.slugify with Gemini.slugify.
  split; apply gemini_short_slug_no_trailing_hyphen.
Qed.

Lemma short_slug_has_no_trailing_hyphen_witness :
  (forall U, length (Gemini.slugify U (lit "- trailing - ") 60) < 60) /\
  (forall U,
     ends_with_hyphen (Gemini.slugify U (lit "- trailing - ") 60) = false).
Proof.
  assert (H : forall U,
            length (Gemini.slugify U (lit "- trailing - ") 60) < 60)
    by (intros U; vm_compute; lia).
  split; [exact H|]. intros U.
  exact (proj1 (short_slug_has_no_trailing_hyphen U (lit "- trailing - "))
           (H U)).
Defined.

(** For an all-ASCII text whose slug does not end with a hyphen, the slug
    of the slug is the slug. *)
Theorem slug_idempotent_without_trailing_hyphen :
  forall U text, forallb is_ascii text = true ->
    (ends_with_hyphen (Gemini.slugify U text 60) = false ->
     Gemini.slugify U (Gemini.slugify U text 60) 60 =
     Gemini.slugify U text 60) /\
    (ends_with_hyphen (OpenAI.slugify U text 60) = false ->
     OpenAI.slugify U (OpenAI.slugify U text 60) 60 =
     OpenAI.slugify U text 60).
Proof.
  intros U text Ha. change OpenAI.slugify with Gemini.slugify.
  assert (H : ends_with_hyphen (Gemini.slugify U text 60) = false ->
     Gemini.slugify U (Gemini.slugify U text 60) 60 =
     Gemini.slugify U text 60).
  { intros He. apply gemini_slug_fixed_point.
    - now apply gemini_ascii_slug_chars.
    - apply gemini_slug_no_leading_hyphen.
    - exact He.
    - apply gemini_slug_length. }
  split; exact H.
Qed.

Lemma slug_idempotent_without_trailing_hyphen_witness :
  forallb is_ascii example_instruction = true /\
  forall U,
    ends_with_hyphen (Gemini.slugify U example_instruction 60) = false /\
    Gemini.slugify U (Gemini.slugify U example_instruction 60) 60 =
    Gemini.slugify U example_instruction 60.
Proof.
  assert (Ha : forallb is_ascii example_instruction = true) by reflexivity.
  split; [exact Ha|]. intros U.
  assert (He : ends_with_hyphen (Gemini.slugify U example_instruction 60)
               = false) by reflexivity.
  split; [exact He|].
  exact (proj1 (slug_idempotent_without_trailing_hyphen U
                  example_instruction Ha) He).
Defined.

(** ** The exit status *)

(** Without a configuration file either script prints one line to the
    error stream and exits with status 1; no event of the stream is
    handled and no file is touched. *)
Theorem missing_config_exits :
  (forall instruction path stream s0,
     Gemini.run_deep_research None instruction path stream s0 =
     ([Stderr [Text (lit "Error: "); Shown Gemini.CONFIG_PATH;
               Text (lit " not found. Copy config.example.json and fill in your API key.");
               Text NL]],
      s0, SystemExit 1%Z)) /\
  (forall instruction path model stream s0,
     OpenAI.run_deep_research None instruction path model stream s0 =
     ([Stderr [Text (lit "Error: "); Shown OpenAI.CONFIG_PATH;
               Text (lit " not found. Copy config.example.json and fill in your API key.");
               Text NL]],
      s0, SystemExit 1%Z)).
Proof. split; intros; reflexivity. Qed.

(** A run ends with status 0 or 1, and with status 0 exactly when it
    wrote the report file. *)
Theorem exit_status_zero_iff_written :
  (forall config_file instruction path stream s0,
     let r :=
       Gemini.run_deep_research config_file instruction path stream s0 in
     (exit_status (outcome_of r) = 0%Z /\ writes (trace_of r) = true) \/
     (exit_status (outcome_of r) = 1%Z /\ writes (trace_of r) = false)) /\
  (forall config_file instruction path model stream s0,
     let r :=
       OpenAI.run_deep_research config_file instruction path model stream s0 in
     (exit_status (outcome_of r) = 0%Z /\ writes (trace_of r) = true) \/
     (exit_status (outcome_of r) = 1%Z /\ writes (trace_of r) = false)).
Proof.
  split.
  - intros [cfg|] instruction path stream s0 r.
    + destruct (gemini_run_observed cfg instruction path stream s0) as [_ H].
      fold r in H. destruct (_ || _) in H; destruct H as [-> H].
      * right. split; [reflexivity | now apply quiet_writes].
      * left. split; [reflexivity|]. apply writes_written. now rewrite H.
    + right. split; reflexivity.
  - intros [cfg|] instruction path model stream s0 r.
    + destruct (openai_run_observed cfg instruction path model stream s0)
        as [_ H].
      fold r in H. destruct (_ || _) in H; destruct H as [-> H].
      * right. split; [reflexivity | now apply quiet_writes].
      * left. split; [reflexivity|]. apply writes_written. now rewrite H.
    + right. split; reflexivity.
Qed.

(** ** The console and the order of the effects *)

Lemma console_only_app (t u : list effect) :
  console_only t -> console_only u -> console_only (t ++ u).
Proof. unfold console_only. rewrite forallb_app. now intros -> ->. Qed.

Lemma console_only_quiet (t : list effect) : console_only t -> quiet t.
Proof.
  unfold console_only, quiet. induction t as [|e t IH]; simpl; [reflexivity|].
  rewrite andb_true_iff. intros [He Ht]. rewrite (IH Ht).
  destruct e; simpl in *; congruence.
Qed.

Lemma console_only_errors (t : list effect) : console_only t -> errors t = [].
Proof.
  unfold console_only. induction t as [|e t IH]; simpl; [reflexivity|].
  rewrite andb_true_iff. intros [He Ht]. rewrite (IH Ht).
  destruct e; simpl in *; congruence.
Qed.

Lemma errors_app (t u : list effect) : errors (t ++ u) = errors t ++ errors u.
Proof. apply flat_map_app. Qed.

(** The loop, for a body that prints to the standard output only, but for
    the one line an [error] event sends to the error stream. *)
Section Console.
Context {S E : Type}.
Variable body : E -> Run S unit.
Variable is_error : E -> bool.

Hypothesis body_error : forall e s, is_error e = true ->
  exists m, body e s = ([Stderr m], s, SystemExit 1%Z).
Hypothesis body_other : forall e s, is_error e = false ->
  exists t s', body e s = (t, s', Return tt) /\ console_only t.

Lemma for_each_console (stream : list E) : forall s, exists t s',
  console_only t /\
  ((existsb is_error stream = false /\
    for_each stream body s = (t, s', Return tt)) \/
   (existsb is_error stream = true /\
    exists m, for_each stream body s = (t ++ [Stderr m], s', SystemExit 1%Z))).
Proof.
  induction stream as [|e rest IH]; intros s; simpl.
  - exists [], s. split; [reflexivity|]. left. split; reflexivity.
  - unfold bind. destruct (is_error e) eqn:He; simpl.
    + destruct (body_error s He) as (m & Hb). rewrite Hb.
      exists [], s. split; [reflexivity|]. right. split; [reflexivity|].
      now exists m.
    + destruct (body_other s He) as (t & s' & Hb & Hc). rewrite Hb.
      destruct (IH s') as (t' & s'' & Hc' & [[Hn Hl]|[Hy (m & Hl)]]);
        rewrite Hl; exists (t ++ t'), s'';
        (split; [now apply console_only_app|]).
      * left. split; [exact Hn | reflexivity].
      * right. split; [exact Hy|]. exists m. now rewrite app_assoc.
Qed.

Lemma for_each_stops_at_error (pre post : list E) (e : E) (s : S) :
  is_error e = true ->
  for_each (pre ++ e :: post) body s = for_each (pre ++ [e]) body s.
Proof.
  intros He. rewrite !for_each_app. apply bind_ext. intros [] s'. simpl.
  unfold bind. destruct (body_error s' He) as (m & ->). reflexivity.
Qed.
End Console.

Lemma gemini_body_error_line (c : Gemini.Chunk) (s : Gemini.locals) :
  Gemini.is_error c = true ->
  exists m, Gemini.loop_body c s = ([Stderr m], s, SystemExit 1%Z).
Proof.
  unfold Gemini.is_error, Gemini.loop_body. intros H.
  apply str_eqb_eq in H. rewrite H. eval_tags.
  eexists; reflexivity.
Qed.

Lemma gemini_body_other_console (c : Gemini.Chunk) (s : Gemini.locals) :
  Gemini.is_error c = false ->
  exists t s', Gemini.loop_body c s = (t, s', Return tt) /\ console_only t.
Proof.
  unfold Gemini.is_error, Gemini.loop_body. intros H.
  generalize dependent (Gemini.event_type c); intros et H.
  generalize (Gemini.delta_type c); intros dt.
  by_tag et; [|by_tag et; [by_tag dt; [|by_tag dt]|by_tag et; [|rewrite H]]];
    (do 2 eexists; split; reflexivity).
Qed.

Lemma openai_body_error_line (e : OpenAI.Event) (s : OpenAI.locals) :
  OpenAI.is_error e = true ->
  exists m, OpenAI.loop_body e s = ([Stderr m], s, SystemExit 1%Z).
Proof.
  unfold OpenAI.is_error, OpenAI.loop_body. intros H.
  apply str_eqb_eq in H. rewrite H. cbv zeta. eval_tags.
  eexists; reflexivity.
Qed.

Lemma openai_body_other_console (e : OpenAI.Event) (s : OpenAI.locals) :
  OpenAI.is_error e = false ->
  exists t s', OpenAI.loop_body e s = (t, s', Return tt) /\ console_only t.
Proof.
  unfold OpenAI.is_error, OpenAI.loop_body. intros H. cbv zeta.
  generalize dependent (OpenAI.type e); intros et H.
  by_tag et; [|by_tag et; [|by_tag et; [|by_tag et; [|by_tag et; [|rewrite H]]]]];
    (do 2 eexists; split; reflexivity).
Qed.

(** The trace of a run that found its configuration: console lines, then
    either one line on the error stream and [sys.exit(1)], or the
    directory, the file and the closing line. *)
Lemma gemini_run_shape (cfg : Config) (instruction : str) (path : Path)
    (stream : list Gemini.Chunk) (s0 : Gemini.locals) :
  exists t l, console_only t /\
    ((exists m,
        Gemini.run_deep_research (Some cfg) instruction path stream s0 =
        (t ++ [Stderr m], l, SystemExit 1%Z)) \/
     Gemini.run_deep_research (Some cfg) instruction path stream s0 =
     (t ++ [MkdirParents path;
            WriteText path (fragments Gemini.fragment stream);
            Stdout [Text NL; Text (lit "Report saved to: "); Shown path;
                    Text NL]],
      l, Return tt)).
Proof.
  unfold Gemini.run_deep_research, Gemini.load_config.
  unfold bind, ret, print, print_err, emit, assign, get, sys_exit.
  pose (l0 := {| Gemini.l_interaction_id := None; Gemini.report := [] |}).
  fold l0.
  destruct (for_each_console Gemini.loop_body Gemini.is_error
              gemini_body_error_line gemini_body_other_console stream l0)
    as (t & l & Hc & [[Hn Hl]|[Hy (m & Hl)]]).
  - destruct (for_each_spec Gemini.loop_body Gemini.report Gemini.is_error
                Gemini.fragment gemini_body_error gemini_body_other stream l0)
      as (t' & l' & Hl' & Hr & _).
    rewrite Hl in Hl'. injection Hl' as <- <-. simpl in Hr.
    rewrite before_error_all in Hr by exact Hn.
    rewrite Hl, Hr. simpl.
    destruct (truthy (fragments Gemini.fragment stream)); simpl.
    + exists (Stdout [Text (lit "Starting deep research..."); Text NL]
              :: Stdout [Text (lit "Instruction: "); Text instruction;
                         Text NL; Text NL] :: t), l.
      split; [exact Hc|]. right. reflexivity.
    + exists (Stdout [Text (lit "Starting deep research..."); Text NL]
              :: Stdout [Text (lit "Instruction: "); Text instruction;
                         Text NL; Text NL] :: t), l.
      split; [exact Hc|]. left. eexists. reflexivity.
  - rewrite Hl. simpl.
    exists (Stdout [Text (lit "Starting deep research..."); Text NL]
            :: Stdout [Text (lit "Instruction: "); Text instruction;
                       Text NL; Text NL] :: t), l.
    split; [exact Hc|]. left. exists m. reflexivity.
Qed.

Lemma openai_run_shape (cfg : Config) (instruction : str) (path : Path)
    (model : str) (stream : list OpenAI.Event) (s0 : OpenAI.locals) :
  exists t l, console_only t /\
    ((exists m,
        OpenAI.run_deep_research (Some cfg) instruction path model stream s0 =
        (t ++ [Stderr m], l, SystemExit 1%Z)) \/
     OpenAI.run_deep_research (Some cfg) instruction path model stream s0 =
     (t ++ [MkdirParents path;
            WriteText path (fragments OpenAI.fragment stream);
            Stdout [Text NL; Text (lit "Report saved to: "); Shown path;
                    Text NL]],
      l, Return tt)).
Proof.
  unfold OpenAI.run_deep_research, OpenAI.load_config.
  unfold bind, ret, print, print_err, emit, assign, get, sys_exit.
  pose (l0 := {| OpenAI.report := [] |}).
  fold l0.
  destruct (for_each_console OpenAI.loop_body OpenAI.is_error
              openai_body_error_line openai_body_other_console stream l0)
    as (t & l & Hc & [[Hn Hl]|[Hy (m & Hl)]]).
  - destruct (for_each_spec OpenAI.loop_body OpenAI.report OpenAI.is_error
                OpenAI.fragment openai_body_error openai_body_other stream l0)
      as (t' & l' & Hl' & Hr & _).
    rewrite Hl in Hl'. injection Hl' as <- <-. simpl in Hr.
    rewrite before_error_all in Hr by exact Hn.
    rewrite Hl, Hr. simpl.
    destruct (truthy (fragments OpenAI.fragment stream)); simpl.
    + exists (Stdout [Text (lit "Starting deep research with "); Text model;
                      Text (lit "..."); Text NL]
              :: Stdout [Text (lit "Instruction: "); Text instruction;
                         Text NL; Text NL] :: t), l.
      split; [exact Hc|]. right. reflexivity.
    + exists (Stdout [Text (lit "Starting deep research with "); Text model;
                      Text (lit "..."); Text NL]
              :: Stdout [Text (lit "Instruction: "); Text instruction;
                         Text NL; Text NL] :: t), l.
      split; [exact Hc|]. left. eexists. reflexivity.
  - rewrite Hl. simpl.
    exists (Stdout [Text (lit "Starting deep research with "); Text model;
                    Text (lit "..."); Text NL]
            :: Stdout [Text (lit "Instruction: "); Text instruction;
                       Text NL; Text NL] :: t), l.
    split; [exact Hc|]. left. exists m. reflexivity.
Qed.

(** An event that is not a text delta (a start, a thought summary, an
    added item, [completed], [error], an unknown tag) leaves the report as
    it is, in both loops. *)
Theorem other_events_keep_report :
  (forall c s, Gemini.is_text_delta c = false ->
     Gemini.report (locals_of (Gemini.loop_body c s)) = Gemini.report s) /\
  (forall e s, OpenAI.is_text_delta e = false ->
     OpenAI.report (locals_of (OpenAI.loop_body e s)) = OpenAI.report s).
Proof.
  split.
  - intros c s H. destruct (Gemini.is_error c) eqn:He.
    + destruct (gemini_body_error c s He) as (t & -> & _). reflexivity.
    + destruct (gemini_body_other c s He) as (t & s' & -> & Hr & _).
      unfold Gemini.fragment in Hr. rewrite H, app_nil_r in Hr. exact Hr.
  - intros e s H. destruct (OpenAI.is_error e) eqn:He.
    + destruct (openai_body_error e s He) as (t & -> & _). reflexivity.
    + destruct (openai_body_other e s He) as (t & s' & -> & Hr & _).
      unfold OpenAI.fragment in Hr. rewrite H, app_nil_r in Hr. exact Hr.
Qed.

Lemma other_events_keep_report_witness :
  (Gemini.is_text_delta gemini_thought = false /\
   Gemini.report (locals_of (Gemini.loop_body gemini_thought
     {| Gemini.l_interaction_id := None; Gemini.report := lit "so far" |}))
   = lit "so far") /\
  (OpenAI.is_text_delta openai_thought = false /\
   OpenAI.report (locals_of (OpenAI.loop_body openai_thought
     {| OpenAI.report := lit "so far" |}))
   = lit "so far").
Proof.
  split.
  - split; [reflexivity|].
    exact (proj1 other_events_keep_report gemini_thought
             {| Gemini.l_interaction_id := None;
                Gemini.report := lit "so far" |} eq_refl).
  - split; [reflexivity|].
    exact (proj2 other_events_keep_report openai_thought
             {| OpenAI.report := lit "so far" |} eq_refl).
Defined.

(** A text delta is printed at once, as it is and with no line end, and
    appended to the report; nothing else changes and the loop goes on. *)
Theorem text_delta_is_echoed_and_appended :
  (forall c s, Gemini.is_text_delta c = true ->
     Gemini.loop_body c s =
     ([Stdout [Text (Gemini.delta_text c); Text []]],
      {| Gemini.l_interaction_id := Gemini.l_interaction_id s;
         Gemini.report := Gemini.report s ++ Gemini.delta_text c |},
      Return tt)) /\
  (forall e s, OpenAI.is_text_delta e = true ->
     OpenAI.loop_body e s =
     ([Stdout [Text (OpenAI.delta e); Text []]],
      {| OpenAI.report := OpenAI.report s ++ OpenAI.delta e |},
      Return tt)).
Proof.
  split.
  - intros c s H. unfold Gemini.is_text_delta in H.
    apply andb_true_iff in H as [H1 H2].
    apply str_eqb_eq in H1, H2. unfold Gemini.loop_body.
    rewrite H1, H2. eval_tags. reflexivity.
  - intros e s H. unfold OpenAI.is_text_delta in H.
    apply str_eqb_eq in H. unfold OpenAI.loop_body. cbv zeta.
    rewrite H. eval_tags. reflexivity.
Qed.

Lemma text_delta_is_echoed_and_appended_witness :
  (Gemini.is_text_delta (gemini_text (lit "world")) = true /\
   Gemini.loop_body (gemini_text (lit "world"))
     {| Gemini.l_interaction_id := Some (lit "i-1");
        Gemini.report := lit "Hello, " |} =
   ([Stdout [Text (lit "world"); Text []]],
    {| Gemini.l_interaction_id := Some (lit "i-1");
       Gemini.report := lit "Hello, " ++ lit "world" |},
    Return tt)) /\
  (OpenAI.is_text_delta (openai_text (lit "world")) = true /\
   OpenAI.loop_body (openai_text (lit "world"))
     {| OpenAI.report := lit "Hello, " |} =
   ([Stdout [Text (lit "world"); Text []]],
    {| OpenAI.report := lit "Hello, " ++ lit "world" |},
    Return tt)).
Proof.
  split.
  - split; [reflexivity|].
    exact (proj1 text_delta_is_echoed_and_appended
             (gemini_text (lit "world"))
             {| Gemini.l_interaction_id := Some (lit "i-1");
                Gemini.report := lit "Hello, " |} eq_refl).
  - split; [reflexivity|].
    exact (proj2 text_delta_is_echoed_and_appended
             (openai_text (lit "world"))
             {| OpenAI.report := lit "Hello, " |} eq_refl).
Defined.

(** Nothing that follows the first [error] event matters: a run on a
    stream is the run on the stream cut after that event, effect for
    effect. *)
Theorem events_after_error_are_ignored :
  (forall config_file instruction path pre c post s0,
     Gemini.is_error c = true ->
     Gemini.run_deep_research config_file instruction path
       (pre ++ c :: post) s0 =
     Gemini.run_deep_research config_file instruction path (pre ++ [c]) s0) /\
  (forall config_file instruction path model pre e post s0,
     OpenAI.is_error e = true ->
     OpenAI.run_deep_research config_file instruction path model
       (pre ++ e :: post) s0 =
     OpenAI.run_deep_research config_file instruction path model
       (pre ++ [e]) s0).
Proof.
  split.
  - intros config_file instruction path pre c post s0 H.
    unfold Gemini.run_deep_research.
    do 4 (apply bind_ext; intros ? ?). unfold bind at 1 6.
    now rewrite (for_each_stops_at_error Gemini.loop_body Gemini.is_error
                   gemini_body_error_line pre post c _ H).
  - intros config_file instruction path model pre e post s0 H.
    unfold OpenAI.run_deep_research.
    do 4 (apply bind_ext; intros ? ?). unfold bind at 1 6.
    now rewrite (for_each_stops_at_error OpenAI.loop_body OpenAI.is_error
                   openai_body_error_line pre post e _ H).
Qed.

Lemma events_after_error_are_ignored_witness :
  (Gemini.is_error gemini_error = true /\
   Gemini.run_deep_research (Some example_config) example_instruction
     gemini_report_md
     ([gemini_text (lit "partial ")] ++ gemini_error ::
      [gemini_text (lit "late"); gemini_completed]) Gemini.unbound =
   Gemini.run_deep_research (Some example_config) example_instruction
     gemini_report_md ([gemini_text (lit "partial ")] ++ [gemini_error])
     Gemini.unbound) /\
  (OpenAI.is_error openai_error = true /\
   OpenAI.run_deep_research (Some example_config) example_instruction
     openai_report_md OpenAI.DEFAULT_MODEL
     ([openai_text (lit "partial ")] ++ openai_error ::
      [openai_text (lit "late"); openai_completed]) OpenAI.unbound =
   OpenAI.run_deep_research (Some example_config) example_instruction
     openai_report_md OpenAI.DEFAULT_MODEL
     ([openai_text (lit "partial ")] ++ [openai_error]) OpenAI.unbound).
Proof.
  split.
  - split; [reflexivity|].
    exact (proj1 events_after_error_are_ignored (Some example_config)
             example_instruction gemini_report_md
             [gemini_text (lit "partial ")] gemini_error
             [gemini_text (lit "late"); gemini_completed] Gemini.unbound
             eq_refl).
  - split; [reflexivity|].
    exact (proj2 events_after_error_are_ignored (Some example_config)
             example_instruction openai_report_md OpenAI.DEFAULT_MODEL
             [openai_text (lit "partial ")] openai_error
             [openai_text (lit "late"); openai_completed] OpenAI.unbound
             eq_refl).
Defined.

(** A run that writes the report ends with exactly these three effects:
    the parent directories of the output path are made, the whole text is
    written to the output path, and the closing line names that path.
    Before them the run only printed to the standard output. *)
Theorem report_is_written_after_mkdir :
  (forall cfg instruction path stream s0,
     let r := Gemini.run_deep_research (Some cfg) instruction path stream s0 in
     writes (trace_of r) = true ->
     exists t, console_only t /\
       trace_of r =
       t ++ [MkdirParents path;
             WriteText path (fragments Gemini.fragment stream);
             Stdout [Text NL; Text (lit "Report saved to: "); Shown path;
                     Text NL]]) /\
  (forall cfg instruction path model stream s0,
     let r :=
       OpenAI.run_deep_research (Some cfg) instruction path model stream s0 in
     writes (trace_of r) = true ->
     exists t, console_only t /\
       trace_of r =
       t ++ [MkdirParents path;
             WriteText path (fragments OpenAI.fragment stream);
             Stdout [Text NL; Text (lit "Report saved to: "); Shown path;
                     Text NL]]).
Proof.
  split.
  - intros cfg instruction path stream s0 r W.
    destruct (gemini_run_shape cfg instruction path stream s0)
      as (t & l & Hc & [(m & H)|H]); fold r in H; rewrite H in *.
    + exfalso. assert (Q : quiet (t ++ [Stderr m]))
        by (apply quiet_app; [now apply console_only_quiet | reflexivity]).
      unfold trace_of in W; simpl in W. rewrite (quiet_writes Q) in W.
      discriminate.
    + exists t. split; [exact Hc | reflexivity].
  - intros cfg instruction path model stream s0 r W.
    destruct (openai_run_shape cfg instruction path model stream s0)
      as (t & l & Hc & [(m & H)|H]); fold r in H; rewrite H in *.
    + exfalso. assert (Q : quiet (t ++ [Stderr m]))
        by (apply quiet_app; [now apply console_only_quiet | reflexivity]).
      unfold trace_of in W; simpl in W. rewrite (quiet_writes Q) in W.
      discriminate.
    + exists t. split; [exact Hc | reflexivity].
Qed.

Lemma report_is_written_after_mkdir_witness :
  (let r := Gemini.run_deep_research (Some example_config)
              example_instruction gemini_report_md
              [gemini_text (lit "Hello"); gemini_completed] Gemini.unbound in
   writes (trace_of r) = true /\
   exists t, console_only t /\
     trace_of r =
     t ++ [MkdirParents gemini_report_md;
           WriteText gemini_report_md
             (fragments Gemini.fragment
                [gemini_text (lit "Hello"); gemini_completed]);
           Stdout [Text NL; Text (lit "Report saved to: ");
                   Shown gemini_report_md; Text NL]]) /\
  (let r := OpenAI.run_deep_research (Some example_config)
              example_instruction openai_report_md OpenAI.DEFAULT_MODEL
              [openai_text (lit "Hello"); openai_completed] OpenAI.unbound in
   writes (trace_of r) = true /\
   exists t, console_only t /\
     trace_of r =
     t ++ [MkdirParents openai_report_md;
           WriteText openai_report_md
             (fragments OpenAI.fragment
                [openai_text (lit "Hello"); openai_completed]);
           Stdout [Text NL; Text (lit "Report saved to: ");
                   Shown openai_report_md; Text NL]]).
Proof.
  split.
  - intros r. assert (W : writes (trace_of r) = true) by reflexivity.
    split; [exact W|].
    exact (proj1 report_is_written_after_mkdir example_config
             example_instruction gemini_report_md
             [gemini_text (lit "Hello"); gemini_completed] Gemini.unbound W).
  - intros r. assert (W : writes (trace_of r) = true) by reflexivity.
    split; [exact W|].
    exact (proj2 report_is_written_after_mkdir example_config
             example_instruction openai_report_md OpenAI.DEFAULT_MODEL
             [openai_text (lit "Hello"); openai_completed] OpenAI.unbound W).
Defined.

(** A run that succeeds sends nothing to the error stream; a run that
    fails (no configuration file, an [error] event, an empty report) sends
    exactly one line to it, and that line is the last thing the run
    does. *)
Theorem one_diagnostic_on_failure :
  (forall config_file instruction path stream s0,
     let r :=
       Gemini.run_deep_research config_file instruction path stream s0 in
     (exit_status (outcome_of r) = 0%Z /\ errors (trace_of r) = []) \/
     (exit_status (outcome_of r) = 1%Z /\
      exists t m, console_only t /\ trace_of r = t ++ [Stderr m])) /\
  (forall config_file instruction path model stream s0,
     let r :=
       OpenAI.run_deep_research config_file instruction path model stream s0 in
     (exit_status (outcome_of r) = 0%Z /\ errors (trace_of r) = []) \/
     (exit_status (outcome_of r) = 1%Z /\
      exists t m, console_only t /\ trace_of r = t ++ [Stderr m])).
Proof.
  split.
  - intros [cfg|] instruction path stream s0 r.
    + destruct (gemini_run_shape cfg instruction path stream s0)
        as (t & l & Hc & [(m & H)|H]); fold r in H; rewrite H.
      * right. split; [reflexivity|]. exists t, m. now split.
      * left. split; [reflexivity|]. unfold trace_of; simpl.
        rewrite errors_app, (console_only_errors Hc). reflexivity.
    + right. split; [reflexivity|]. exists []. eexists.
      split; reflexivity.
  - intros [cfg|] instruction path model stream s0 r.
    + destruct (openai_run_shape cfg instruction path model stream s0)
        as (t & l & Hc & [(m & H)|H]); fold r in H; rewrite H.
      * right. split; [reflexivity|]. exists t, m. now split.
      * left. split; [reflexivity|]. unfold trace_of; simpl.
        rewrite errors_app, (console_only_errors Hc). reflexivity.
    + right. split; [reflexivity|]. exists []. eexists.
      split; reflexivity.
Qed.

(** ** [main] *)

Lemma gemini_output_path_name (U : unicodedata) (args : Gemini.Args)
    (now : datetime) :
  Gemini.output_path U args now =
  Gemini.OUTPUT_DIR //
    file_name U (Gemini.instruction args) (Gemini.output args) now.
Proof.
  unfold Gemini.output_path, file_name.
  now destruct (given (Gemini.output args)).
Qed.

Lemma openai_output_path_name (U : unicodedata) (args : OpenAI.Args)
    (now : datetime) :
  OpenAI.output_path U args now =
  OpenAI.OUTPUT_DIR //
    file_name U (OpenAI.instruction args) (OpenAI.output args) now.
Proof.
  unfold OpenAI.output_path, file_name.
  now destruct (given (OpenAI.output args)).
Qed.

(** [main] writes at most one file.  When it writes one, the path is the
    script's output directory joined with the [-o] value, or with the
    generated name when there is none, and the content is the text of all
    text deltas of the stream; no other path is ever written. *)
Theorem main_writes_at_most_one_file :
  (forall U args now config_file stream s0,
     let files :=
       written (trace_of (Gemini.main U args now config_file stream s0)) in
     files = [] \/
     files =
       [(Gemini.OUTPUT_DIR //
           file_name U (Gemini.instruction args) (Gemini.output args) now,
         fragments Gemini.fragment stream)]) /\
  (forall U args now config_file stream s0,
     let files :=
       written (trace_of (OpenAI.main U args now config_file stream s0)) in
     files = [] \/
     files =
       [(OpenAI.OUTPUT_DIR //
           file_name U (OpenAI.instruction args) (OpenAI.output args) now,
         fragments OpenAI.fragment stream)]).
Proof.
  split.
  - intros U args now [cfg|] stream s0 files; subst files;
      unfold Gemini.main; rewrite gemini_output_path_name.
    + match goal with |- context [Gemini.run_deep_research _ ?i ?p _ _] =>
        destruct (gemini_run_observed cfg i p stream s0) as [_ H]
      end.
      cbv zeta in H. destruct (_ || _) in H; destruct H as [_ H].
      * left. now apply quiet_written.
      * right. exact H.
    + left. reflexivity.
  - intros U args now [cfg|] stream s0 files; subst files;
      unfold OpenAI.main; rewrite openai_output_path_name.
    + match goal with |- context [OpenAI.run_deep_research _ ?i ?p ?m _ _] =>
        destruct (openai_run_observed cfg i p m stream s0) as [_ H]
      end.
      cbv zeta in H. destruct (_ || _) in H; destruct H as [_ H].
      * left. now apply quiet_written.
      * right. exact H.
    + left. reflexivity.
Qed.

(** ** The two scripts side by side *)

Lemma view_existsb {E} (is_error : E -> bool) (fragment : E -> str)
    (stream : list E) :
  existsb is_error stream =
  existsb fst (map (fun e => (is_error e, fragment e)) stream).
Proof.
  induction stream as [|e rest IH]; simpl; [reflexivity | now rewrite IH].
Qed.

Lemma view_fragments {E} (is_error : E -> bool) (fragment : E -> str)
    (stream : list E) :
  fragments fragment stream =
  fragments snd (map (fun e => (is_error e, fragment e)) stream).
Proof.
  unfold fragments. induction stream as [|e rest IH]; simpl;
    [reflexivity | now rewrite IH].
Qed.

Lemma view_before_error {E} (is_error : E -> bool) (fragment : E -> str)
    (stream : list E) :
  fragments fragment (before_error is_error stream) =
  fragments snd
    (before_error fst (map (fun e => (is_error e, fragment e)) stream)).
Proof.
  unfold fragments. induction stream as [|e rest IH]; simpl; [reflexivity|].
  destruct (is_error e); simpl; [reflexivity | now rewrite IH].
Qed.

(** Two streams that agree event by event on what is an [error] event
    and on the text each event adds to the report make the two scripts end
    alike: same exit status, same report held at the end, and the same
    text written (each to its own path) or no file at all. *)
Theorem scripts_agree_on_matching_streams :
  forall cfg instruction gpath opath model gstream ostream g0 o0,
    map gemini_view gstream = map openai_view ostream ->
    let g := Gemini.run_deep_research (Some cfg) instruction gpath gstream g0 in
    let o :=
      OpenAI.run_deep_research (Some cfg) instruction opath model ostream o0 in
    exit_status (outcome_of g) = exit_status (outcome_of o) /\
    Gemini.report (locals_of g) = OpenAI.report (locals_of o) /\
    map snd (written (trace_of g)) = map snd (written (trace_of o)) /\
    map fst (written (trace_of g)) = map (fun _ => gpath) (written (trace_of o)).
Proof.
  intros cfg instruction gpath opath model gstream ostream g0 o0 Hv g o.
  destruct (gemini_run_observed cfg instruction gpath gstream g0) as [Gr G].
  destruct (openai_run_observed cfg instruction opath model ostream o0)
    as [Or O].
  fold g in Gr, G. fold o in Or, O. cbv zeta in G, O.
  unfold gemini_view, openai_view in Hv.
  rewrite (view_existsb Gemini.is_error Gemini.fragment),
    (view_fragments Gemini.is_error Gemini.fragment), Hv,
    <- (view_existsb OpenAI.is_error OpenAI.fragment),
    <- (view_fragments OpenAI.is_error OpenAI.fragment) in G.
  rewrite (view_before_error Gemini.is_error Gemini.fragment), Hv,
    <- (view_before_error OpenAI.is_error OpenAI.fragment) in Gr.
  split; [|split; [congruence|]].
  - destruct (_ || _) in G, O; destruct G as [-> _], O as [-> _]; reflexivity.
  - destruct (_ || _) in G, O; destruct G as [_ G], O as [_ O].
    + rewrite (quiet_written G), (quiet_written O). split; reflexivity.
    + rewrite G, O. split; reflexivity.
Qed.

Lemma scripts_agree_on_matching_streams_witness :
  map gemini_view
    [gemini_event (lit "interaction.start"); gemini_text (lit "Hello");
     gemini_thought; gemini_completed] =
  map openai_view
    [openai_event (lit "response.created"); openai_text (lit "Hello");
     openai_thought; openai_completed] /\
  let g := Gemini.run_deep_research (Some example_config) example_instruction
             gemini_report_md
             [gemini_event (lit "interaction.start"); gemini_text (lit "Hello");
              gemini_thought; gemini_completed] Gemini.unbound in
  let o := OpenAI.run_deep_research (Some example_config) example_instruction
             openai_report_md OpenAI.DEFAULT_MODEL
             [openai_event (lit "response.created"); openai_text (lit "Hello");
              openai_thought; openai_completed] OpenAI.unbound in
  exit_status (outcome_of g) = exit_status (outcome_of o) /\
  Gemini.report (locals_of g) = OpenAI.report (locals_of o) /\
  map snd (written (trace_of g)) = map snd (written (trace_of o)) /\
  map fst (written (trace_of g)) =
    map (fun _ => gemini_report_md) (written (trace_of o)).
Proof.
  assert (H : map gemini_view
    [gemini_event (lit "interaction.start"); gemini_text (lit "Hello");
     gemini_thought; gemini_completed] =
  map openai_view
    [openai_event (lit "response.created"); openai_text (lit "Hello");
     openai_thought; openai_completed]) by reflexivity.
  split; [exact H|].
  exact (scripts_agree_on_matching_streams example_config example_instruction
           gemini_report_md openai_report_md OpenAI.DEFAULT_MODEL _ _
           Gemini.unbound OpenAI.unbound H).
Defined.

(** ** Degenerate slugs and letter case *)











(** Two all-ASCII instructions that differ only in the case of their
    letters have the same slug. *)
Theorem slug_ignores_letter_case :
  forall U text1 text2 max_len,
    forallb is_ascii text1 = true -> forallb is_ascii text2 = true ->
    map ascii_tolower text1 = map ascii_tolower text2 ->
    Gemini.slugify U text1 max_len = Gemini.slugify U text2 max_len /\
    OpenAI.slugify U text1 max_len = OpenAI.slugify U text2 max_len.
Proof.
  intros U text1 text2 max_len H1 H2 H.
  change OpenAI.slugify with Gemini.slugify. unfold Gemini.slugify.
  rewrite (lower_ascii U text1 H1), (lower_ascii U text2 H2), H.
  split; reflexivity.
Qed.

Lemma slug_ignores_letter_case_witness :
  forallb is_ascii (lit "Deep RESEARCH on AI") = true /\
  forallb is_ascii (lit "deep Research On ai") = true /\
  map ascii_tolower (lit "Deep RESEARCH on AI") =
    map ascii_tolower (lit "deep Research On ai") /\
  forall U,
    Gemini.slugify U (lit "Deep RESEARCH on AI") 60 =
      Gemini.slugify U (lit "deep Research On ai") 60 /\
    OpenAI.slugify U (lit "Deep RESEARCH on AI") 60 =
      OpenAI.slugify U (lit "deep Research On ai") 60.
Proof.
  assert (H1 : forallb is_ascii (lit "Deep RESEARCH on AI") = true)
    by reflexivity.
  assert (H2 : forallb is_ascii (lit "deep Research On ai") = true)
    by reflexivity.
  assert (H : map ascii_tolower (lit "Deep RESEARCH on AI") =
              map ascii_tolower (lit "deep Research On ai")) by reflexivity.
  split; [exact H1|]. split; [exact H2|]. split; [exact H|]. intros U.
  exact (slug_ignores_letter_case U _ _ 60 H1 H2 H).
Defined.

(** ** The timestamp tells the clock *)

Lemma zero_padded_length (width : nat) : forall n,
  length (zero_padded width n) = width.
Proof.
  induction width as [|w IH]; intros n; cbn [zero_padded]; [reflexivity|].
  rewrite length_app, IH. cbn [length]. lia.
Qed.

Lemma app_same_length {A} (a a' b b' : list A) :
  length a = length a' -> a ++ b = a' ++ b' -> a = a' /\ b = b'.
Proof.
  revert a'; induction a as [|x a IH]; intros [|y a'] Hl H;
    try discriminate; simpl in *.
  - now split.
  - injection H as -> H. destruct (IH a' (eq_add_S _ _ Hl) H) as [-> ->].
    now split.
Qed.

Lemma zero_padded_inj (width : nat) (n1 n2 : N) :
  (n1 < 10 ^ N.of_nat width)%N -> (n2 < 10 ^ N.of_nat width)%N ->
  zero_padded width n1 = zero_padded width n2 -> n1 = n2.
Proof.
  intros H1 H2 H.
  destruct (@zero_padded_decimal width n1 H1) as (_ & _ & V1).
  destruct (@zero_padded_decimal width n2 H2) as (_ & _ & V2).
  rewrite H in V1. congruence.
Qed.

Lemma strftime_length (now : datetime) :
  length (strftime now (lit "%Y%m%d_%H%M%S")) = 15.
Proof.
  rewrite strftime_Ymd_HMS. rewrite !length_app, !zero_padded_length.
  reflexivity.
Qed.

Lemma strftime_inj (d1 d2 : datetime) :
  valid_datetime d1 -> valid_datetime d2 ->
  strftime d1 (lit "%Y%m%d_%H%M%S") = strftime d2 (lit "%Y%m%d_%H%M%S") ->
  d1 = d2.
Proof.
  intros (Y1 & M1 & D1 & h1 & m1 & s1) (Y2 & M2 & D2 & h2 & m2 & s2).
  rewrite !strftime_Ymd_HMS. intros H.
  apply app_same_length in H as [HY H]; [|now rewrite !zero_padded_length].
  apply app_same_length in H as [HM H]; [|now rewrite !zero_padded_length].
  apply app_same_length in H as [HD H]; [|now rewrite !zero_padded_length].
  apply app_same_length in H as [_ H]; [|reflexivity].
  apply app_same_length in H as [Hh H]; [|now rewrite !zero_padded_length].
  apply app_same_length in H as [Hm Hs]; [|now rewrite !zero_padded_length].
  apply zero_padded_inj in HY, HM, HD, Hh, Hm, Hs; simpl; try lia.
  destruct d1, d2; simpl in *. congruence.
Qed.

Lemma path_name_inj (p q : Path) (a b : str) : p // a = q // b -> a = b.
Proof. intros H. now injection H. Qed.

(** Two runs at different seconds never get the same generated file
    name: with no [-o] value, different clock readings give different
    output paths, whatever the two instructions are. *)
Theorem generated_names_differ_with_the_clock :
  (forall U args1 args2 now1 now2,
     valid_datetime now1 -> valid_datetime now2 ->
     given (Gemini.output args1) = false ->
     given (Gemini.output args2) = false ->
     now1 <> now2 ->
     Gemini.output_path U args1 now1 <> Gemini.output_path U args2 now2) /\
  (forall U args1 args2 now1 now2,
     valid_datetime now1 -> valid_datetime now2 ->
     given (OpenAI.output args1) = false ->
     given (OpenAI.output args2) = false ->
     now1 <> now2 ->
     OpenAI.output_path U args1 now1 <> OpenAI.output_path U args2 now2).
Proof.
  split; intros U args1 args2 now1 now2 V1 V2 G1 G2 Hne H; apply Hne.
  - rewrite (gemini_generated_path U args1 now1 G1),
      (gemini_generated_path U args2 now2 G2) in H.
    apply path_name_inj in H.
    apply app_same_length in H as [H _]; [|now rewrite !strftime_length].
    now apply strftime_inj.
  - rewrite (openai_generated_path U args1 now1 G1),
      (openai_generated_path U args2 now2 G2) in H.
    apply path_name_inj in H.
    apply app_same_length in H as [H _]; [|now rewrite !strftime_length].
    now apply strftime_inj.
Qed.

Lemma generated_names_differ_with_the_clock_witness :
  valid_datetime example_now /\ valid_datetime one_second_later /\
  example_now <> one_second_later /\
  forall U,
    Gemini.output_path U
      {| Gemini.instruction := example_instruction; Gemini.output := None |}
      example_now <>
    Gemini.output_path U
      {| Gemini.instruction := example_instruction; Gemini.output := None |}
      one_second_later.
Proof.
  assert (V1 : valid_datetime example_now)
    by (unfold valid_datetime; simpl; lia).
  assert (V2 : valid_datetime one_second_later)
    by (unfold valid_datetime; simpl; lia).
  assert (Hne : example_now <> one_second_later) by discriminate.
  split; [exact V1|]. split; [exact V2|]. split; [exact Hne|]. intros U.
  exact (proj1 generated_names_differ_with_the_clock U
           {| Gemini.instruction := example_instruction;
              Gemini.output := None |}
           {| Gemini.instruction := example_instruction;
              Gemini.output := None |}
           example_now one_second_later V1 V2 eq_refl eq_refl Hne).
Defined.
